(** * CineHub: a shallow embedding of the application logic

    The development follows the layout of the Python package:

    - [db]           : app/db.py, the ratings table;
    - [jellyfin]     : app/services/jellyfin.py, the methods of [JellyfinClient];
    - [tmdb]         : app/services/tmdb.py, the methods of [TMDBClient];
    - [recommender]  : app/services/recommender.py;
    - [provider]     : app/services/provider.py;
    - [main]         : app/main.py, the routes [home] and [title_detail].

    Python values that come out of [resp.json()] are modelled by the type
    [Value]; a Python [str] is a [string] holding its UTF-8 encoding (so
    only text that has one is represented); the unbounded Python [int] is
    [Z], and the interpreter's cap on the number of digits it prints is not
    modelled.  Code that talks to the network, reads the environment or
    raises runs in the state-and-exception monad [M]. *)

From Stdlib Require Import ZArith String Ascii List Bool Lia.
From stdpp Require Import base tactics list strings pretty.
Import ListNotations.

Open Scope string_scope.
Open Scope Z_scope.
Open Scope list_scope.

(** ** JSON values and the Python operations applied to them *)

(** What [json.loads] produces.  JSON numbers are taken to be integers;
    an object is the association list of its members, looked up from the
    front. *)
#[warnings="-register-all"]
Inductive Value : Type :=
| VNone
| VBool (b : bool)
| VInt (n : Z)
| VStr (s : string)
| VList (l : list Value)
| VDict (d : list (string * Value)).

(** Exceptions the modelled code can meet.  Every one of them is a
    subclass of Python's [Exception], so a bare [except Exception:]
    catches them all. *)
Inductive NetFailure : Type := ConnectionFailed | TimedOut.

Inductive exn : Type :=
| RequestException (why : NetFailure)
| HTTPError (status : Z)
| JSONDecodeError
| AttributeError
| TypeError
| KeyError
| IndexError
| ValueError
| HTTPException (status_code : Z) (detail : string).

Inductive Exc (A : Type) : Type :=
| Ok (a : A)
| Raise (e : exn).
Arguments Ok {A} a.
Arguments Raise {A} e.

(** Python truthiness, [bool(v)]. *)
Definition truthy (v : Value) : bool :=
  match v with
  | VNone => false
  | VBool b => b
  | VInt n => negb (n =? 0)
  | VStr s => negb (String.eqb s "")
  | VList l => match l with [] => false | _ => true end
  | VDict d => match d with [] => false | _ => true end
  end.

(** [a or b] on values. *)
Definition py_or (a b : Value) : Value := if truthy a then a else b.

Fixpoint assoc (k : string) (d : list (string * Value)) : option Value :=
  match d with
  | [] => None
  | (k', v) :: d' => if String.eqb k k' then Some v else assoc k d'
  end.

(** [d.get(k, default)] on an object already known to be a dict. *)
Definition dict_get (d : list (string * Value)) (k : string) (default : Value) : Value :=
  match assoc k d with
  | Some v => v
  | None => default
  end.

(** [v.get(k, default)]: only a dict has the method. *)
Definition py_get (v : Value) (k : string) (default : Value) : Exc Value :=
  match v with
  | VDict d => Ok (dict_get d k default)
  | _ => Raise AttributeError
  end.

(** [v[k]] with a string key. *)
Definition py_getitem_str (v : Value) (k : string) : Exc Value :=
  match v with
  | VDict d => match assoc k d with Some x => Ok x | None => Raise KeyError end
  | _ => Raise TypeError
  end.

Definition is_dict (v : Value) : bool :=
  match v with VDict _ => true | _ => false end.

Definition is_none (v : Value) : bool :=
  match v with VNone => true | _ => false end.

(** The builtins whose full definition needs the Unicode tables: [repr]
    of a container (used by [str()] and f-strings) and [int()] applied to
    a string. *)
Class PyBuiltins : Type := {
  py_repr : Value -> string;
  py_int : string -> option Z
}.

(** ** The state-and-exception monad *)

Definition M (S A : Type) : Type := S -> Exc A * S.

Definition ret {S A} (a : A) : M S A := fun s => (Ok a, s).

Definition bind {S A B} (m : M S A) (k : A -> M S B) : M S B :=
  fun s => match m s with
           | (Ok a, s') => k a s'
           | (Raise e, s') => (Raise e, s')
           end.

Definition raise {S A} (e : exn) : M S A := fun s => (Raise e, s).

(** [try: m  except Exception: h] *)
Definition try_except {S A} (m : M S A) (h : M S A) : M S A :=
  fun s => match m s with
           | (Ok a, s') => (Ok a, s')
           | (Raise _, s') => h s'
           end.

Definition lift_exc {S A} (r : Exc A) : M S A := fun s => (r, s).

Fixpoint mapM {S A B} (f : A -> M S B) (l : list A) : M S (list B) :=
  match l with
  | [] => ret []
  | x :: l' => bind (f x) (fun y => bind (mapM f l') (fun ys => ret (y :: ys)))
  end.

Definition gets {S A} (f : S -> A) : M S A := fun s => (Ok (f s), s).

Notation "'do' x <- m ; k" := (bind m (fun x => k))
  (at level 10, x name, m at level 100, k at level 200, only parsing).
Notation "'run' m ; k" := (bind m (fun _ => k))
  (at level 10, m at level 100, k at level 200, only parsing).

(** ** app/db.py *)

Module db.

(** One row of [ratings]; the primary key is [(source, key)]. *)
Record Row : Type := mkRow {
  source : string;
  key : string;
  stars : Z;
  updated_at : Z
}.

Definition Table : Type := list Row.

Definition same_key (s k : string) (r : Row) : bool :=
  String.eqb s (source r) && String.eqb k (key r).

(** [INSERT ... ON CONFLICT(source, key) DO UPDATE SET stars=excluded.stars,
    updated_at=CURRENT_TIMESTAMP]: the conflicting row is rewritten in
    place, otherwise the new row is added. *)
Fixpoint insert_or_update (new : Row) (t : Table) : Table :=
  match t with
  | [] => [new]
  | r :: t' =>
      if same_key (source new) (key new) r
      then mkRow (source r) (key r) (stars new) (updated_at new) :: t'
      else r :: insert_or_update new t'
  end.

(** [stars = max(1, min(5, int(stars)))]; [now] is the reading of
    [CURRENT_TIMESTAMP] when the statement runs. *)
Definition upsert_rating (now : Z) (source key : string) (stars : Z) (t : Table) : Table :=
  let stars := Z.max 1 (Z.min 5 stars) in
  insert_or_update (mkRow source key stars now) t.

(** [SELECT stars FROM ratings WHERE source=? AND key=?] and [fetchone()]. *)
Definition get_rating (source key : string) (t : Table) : option Z :=
  match List.filter (same_key source key) t with
  | row :: _ => Some (stars row)
  | [] => None
  end.

End db.

(** ** Strings: slicing, formatting, URL quoting *)

(** A continuation byte of a UTF-8 sequence, [10xxxxxx]. *)
Definition is_continuation (c : ascii) : bool :=
  let n := N_of_ascii c in (128 <=? n)%N && (n <? 192)%N.

Fixpoint utf8_chars_go (s : string) : string * list string :=
  match s with
  | EmptyString => (EmptyString, [])
  | String c r =>
      let '(pending, acc) := utf8_chars_go r in
      if is_continuation c then (String c pending, acc)
      else (EmptyString, String c pending :: acc)
  end.

(** The characters of a [str], each as a one-character string. *)
Definition utf8_chars (s : string) : list string := snd (utf8_chars_go s).

(** [v[0]] *)
Definition py_getitem_0 (v : Value) : Exc Value :=
  match v with
  | VList (x :: _) => Ok x
  | VList [] => Raise IndexError
  | VStr s => match s with
              | EmptyString => Raise IndexError
              | String _ _ => Ok (VStr (String.concat "" (firstn 1 (utf8_chars s))))
              end
  | VDict _ => Raise KeyError
  | _ => Raise TypeError
  end.

(** [seq[:stop]] on a list. *)
Definition py_slice_to {A} (stop : Z) (l : list A) : list A :=
  if 0 <=? stop then firstn (Z.to_nat stop) l
  else firstn (length l - Z.to_nat (- stop))%nat l.

(** [v[:stop]]: lists and strings can be sliced, nothing else can (the
    exception class for a dict depends on the interpreter version; it is
    an [Exception] in all of them). *)
Definition py_slice_value (v : Value) (stop : Z) : Exc Value :=
  match v with
  | VList l => Ok (VList (py_slice_to stop l))
  | VStr s => Ok (VStr (String.concat "" (py_slice_to stop (utf8_chars s))))
  | _ => Raise TypeError
  end.

(** [for x in v]: the elements visited, or [TypeError]. *)
Definition py_iter (v : Value) : Exc (list Value) :=
  match v with
  | VList l => Ok l
  | VStr s => Ok (List.map VStr (utf8_chars s))
  | VDict d => Ok (List.map (fun kv => VStr (fst kv)) d)
  | _ => Raise TypeError
  end.

(** [str(v)], as an f-string applies it. *)
Definition py_str `{PyBuiltins} (v : Value) : string :=
  match v with
  | VNone => "None"
  | VBool true => "True"
  | VBool false => "False"
  | VInt n => pretty n
  | VStr s => s
  | VList _ | VDict _ => py_repr v
  end.

Definition hex_digit (n : N) : ascii :=
  match String.get (N.to_nat n) "0123456789ABCDEF" with
  | Some c => c
  | None => "0"%char
  end.

(** The characters [urllib.parse.quote] never escapes. *)
Definition always_safe (c : ascii) : bool :=
  let n := N_of_ascii c in
  ((65 <=? n) && (n <=? 90) || (97 <=? n) && (n <=? 122) || (48 <=? n) && (n <=? 57))%N
  || Ascii.eqb c "_" || Ascii.eqb c "." || Ascii.eqb c "-" || Ascii.eqb c "~".

Definition quote_byte (c : ascii) : string :=
  if always_safe c then String c EmptyString
  else if Ascii.eqb c " " then "+"
  else let n := N_of_ascii c in
       String "%" (String (hex_digit (n / 16)) (String (hex_digit (n mod 16)) EmptyString)).

(** [urllib.parse.quote_plus] on a [str]. *)
Fixpoint quote_plus (s : string) : string :=
  match s with
  | EmptyString => EmptyString
  | String c r => quote_byte c +:+ quote_plus r
  end.

(** [quote_plus] rejects what is neither [str] nor [bytes]. *)
Definition quote_plus_value (v : Value) : Exc string :=
  match v with
  | VStr s => Ok (quote_plus s)
  | _ => Raise TypeError
  end.

(** [d[k] = v] on a dict. *)
Fixpoint dict_set (k : string) (v : Value) (d : list (string * Value)) : list (string * Value) :=
  match d with
  | [] => [(k, v)]
  | (k', v') :: d' => if String.eqb k k' then (k, v) :: d' else (k', v') :: dict_set k v d'
  end.

(** ** The process state: network, environment, client objects, ratings *)

Inductive Method : Type := HEAD | GET | POST.

(** One call of the [requests] library; [timeout_ms] is the [timeout]
    argument in milliseconds. *)
Record Request : Type := mkRequest {
  method : Method;
  url : string;
  headers : list (string * string);
  params : list (string * Value);
  json : Value;
  timeout_ms : Z
}.

Record Response : Type := mkResponse {
  status_code : Z;
  text : string;
  json_body : option Value
}.

Record JellyfinClient : Type := mkJellyfinClient {
  lan_url : string;
  wan_url : string;
  api_key : string;
  user_id : string;
  default_headers : list (string * string)
}.

Record TMDBClient : Type := mkTMDBClient {
  tmdb_api_key : string;
  region : string;
  language : string;
  base : string
}.

(** [upstream] answers a request given everything sent before it, so that
    reachability may change from one call to the next; [trace] is the
    list of requests sent so far, oldest first; [jellyfin_obj] and
    [tmdb_obj] are the module-level client objects of main.py. *)
Record World : Type := mkWorld {
  upstream : list Request -> Request -> NetFailure + Response;
  environ : string -> option string;
  trace : list Request;
  jellyfin_obj : JellyfinClient;
  tmdb_obj : TMDBClient;
  ratings : db.Table
}.

Definition sent (r : Request) (w : World) : World :=
  mkWorld (upstream w) (environ w) (trace w ++ [r]) (jellyfin_obj w) (tmdb_obj w) (ratings w).

(** [requests.head/get/post]: the request goes out, and either a
    response comes back or the library raises. *)
Definition http (r : Request) : M World Response :=
  fun w => match upstream w (trace w) r with
           | inl why => (Raise (RequestException why), sent r w)
           | inr resp => (Ok resp, sent r w)
           end.

(** [resp.raise_for_status()] *)
Definition raise_for_status (resp : Response) : Exc unit :=
  if (400 <=? status_code resp) && (status_code resp <? 600)
  then Raise (HTTPError (status_code resp))
  else Ok tt.

(** [resp.json()] *)
Definition resp_json (resp : Response) : Exc Value :=
  match json_body resp with
  | Some v => Ok v
  | None => Raise JSONDecodeError
  end.

(** [resp.ok]: no error status. *)
Definition resp_ok (resp : Response) : bool :=
  match raise_for_status resp with
  | Ok _ => true
  | Raise _ => false
  end.

(** [s.rstrip("/")] *)
Fixpoint rstrip_slash (s : string) : string :=
  match s with
  | EmptyString => EmptyString
  | String c r =>
      match rstrip_slash r with
      | EmptyString => if Ascii.eqb c "/" then EmptyString else String c EmptyString
      | r' => String c r'
      end
  end.

(** [os.environ.get(name, fallback)] *)
Definition getenv (env : string -> option string) (name fallback : string) : string :=
  match env name with
  | Some v => v
  | None => fallback
  end.

(** A statement run against the ratings table. *)
Definition update_ratings (f : db.Table -> db.Table) : M World unit :=
  fun w => (Ok tt, mkWorld (upstream w) (environ w) (trace w) (jellyfin_obj w) (tmdb_obj w)
                           (f (ratings w))).

(** ** app/services/jellyfin.py *)

Module jellyfin.

Definition head_probe (self : JellyfinClient) : Request :=
  mkRequest HEAD (lan_url self) [] [] VNone 500.

Definition _base : M World string :=
  do self <- gets jellyfin_obj ;
  try_except
    (run http (head_probe self) ; ret (lan_url self))
    (ret (wan_url self)).

Definition _get (path : string) (params : list (string * Value)) : M World Value :=
  do b <- _base ;
  do self <- gets jellyfin_obj ;
  let url := b +:+ path in
  do resp <- http (mkRequest GET url (default_headers self) params VNone 10000) ;
  run lift_exc (raise_for_status resp) ;
  lift_exc (resp_json resp).

Definition get_recently_added (limit : Z) : M World Value :=
  do self <- gets jellyfin_obj ;
  let path := "/Users/" +:+ user_id self +:+ "/Items/Latest" in
  _get path [("Limit", VInt limit)].

Definition get_continue_watching (limit : Z) : M World Value :=
  do self <- gets jellyfin_obj ;
  let path := "/Users/" +:+ user_id self +:+ "/Items/Resume" in
  do data <- _get path [("Limit", VInt limit)] ;
  lift_exc (py_get data "Items" data).

Definition get_item (item_id : string) : M World Value :=
  do self <- gets jellyfin_obj ;
  let path := "/Users/" +:+ user_id self +:+ "/Items/" +:+ item_id in
  _get path [].

Definition is_in_library `{PyBuiltins} (tmdb_id : Value) (media_type : Value) : M World bool :=
  let path := "/Items" in
  do data <- _get path [("AnyProviderIdEquals", VStr ("tmdb." +:+ py_str tmdb_id))] ;
  do total <- lift_exc (py_get data "TotalRecordCount" VNone) ;
  ret (truthy total).

Definition stream_url (item_id : string) : M World string :=
  do b <- _base ;
  do self <- gets jellyfin_obj ;
  ret (b +:+ "/Videos/" +:+ item_id +:+ "/stream?api_key=" +:+ api_key self).

Definition list_sessions : M World Value := _get "/Sessions" [].

Definition play_item (session_id item_id : string) : M World Value :=
  do b <- _base ;
  do self <- gets jellyfin_obj ;
  let url := b +:+ "/Sessions/" +:+ session_id +:+ "/Playing" in
  let payload := VDict [("ItemIds", VList [VStr item_id]); ("PlayCommand", VStr "PlayNow")] in
  do resp <- http (mkRequest POST url (default_headers self) [] payload 10000) ;
  ret (VDict [("status_code", VInt (status_code resp)); ("response", VStr (text resp))]).

Definition __init__ (lan_url wan_url api_key user_id : string) : JellyfinClient :=
  mkJellyfinClient (rstrip_slash lan_url) (rstrip_slash wan_url) api_key user_id
    [("X-Emby-Token", api_key); ("accept", "application/json")].

Definition from_env (env : string -> option string) : JellyfinClient :=
  __init__ (getenv env "JELLYFIN_LAN_URL" "http://localhost:8096")
           (getenv env "JELLYFIN_WAN_URL" "http://localhost:8096")
           (getenv env "JELLYFIN_API_KEY" "")
           (getenv env "JELLYFIN_USER_ID" "").

End jellyfin.

(** ** app/services/tmdb.py *)

Module tmdb.

Definition _get (path : string) (params : list (string * Value)) : M World Value :=
  do self <- gets tmdb_obj ;
  let url := base self +:+ path in
  let params := dict_set "api_key" (VStr (tmdb_api_key self)) params in
  let params := if truthy (VStr (language self))
                then dict_set "language" (VStr (language self)) params
                else params in
  do resp <- http (mkRequest GET url [] params VNone 10000) ;
  run lift_exc (raise_for_status resp) ;
  lift_exc (resp_json resp).

Definition get_trending (limit : Z) : M World Value :=
  do data <- _get "/trending/all/week" [] ;
  do results <- lift_exc (py_get data "results" (VList [])) ;
  lift_exc (py_slice_value results limit).

Definition get_details (media_type : string) (tmdb_id : Z) : M World Value :=
  let path := "/" +:+ media_type +:+ "/" +:+ pretty tmdb_id in
  _get path [].

Definition get_streaming_highlights (limit : Z) : M World Value :=
  get_trending limit.

End tmdb.

(** ** app/services/recommender.py *)

Module recommender.

(** [item.get("media_type") or ("tv" if item.get("name") else "movie")] *)
Definition media_type_of (item : Value) : Exc Value :=
  match item with
  | VDict d =>
      Ok (py_or (dict_get d "media_type" VNone)
                (if truthy (dict_get d "name" VNone) then VStr "tv" else VStr "movie"))
  | _ => Raise AttributeError
  end.

(** The [for item in candidates] loop of [recommend_download], with the
    library check [is_in_library] of the Jellyfin client as a parameter;
    [suggestions] is the list built so far. *)
Fixpoint recommend_loop {S} (is_in_library : Value -> Value -> M S bool)
    (limit : Z) (candidates suggestions : list Value) : M S (list Value) :=
  match candidates with
  | [] => ret suggestions
  | item :: rest =>
      do media_type <- lift_exc (media_type_of item) ;
      do tmdb_id <- lift_exc (py_get item "id" VNone) ;
      if is_none tmdb_id then recommend_loop is_in_library limit rest suggestions
      else
        do owned <- is_in_library tmdb_id media_type ;
        if owned : bool then recommend_loop is_in_library limit rest suggestions
        else
          let suggestions := suggestions ++ [item] in
          if Z.of_nat (length suggestions) >=? limit then ret suggestions
          else recommend_loop is_in_library limit rest suggestions
  end.

Definition recommend_download `{PyBuiltins} (limit : Z) : M World Value :=
  do candidates <- tmdb.get_trending 100 ;
  do items <- lift_exc (py_iter candidates) ;
  do suggestions <- recommend_loop jellyfin.is_in_library limit items [] ;
  ret (VList suggestions).

End recommender.

(** ** app/services/provider.py *)

Module provider.

(** [normalized = title], or [f"{title} ({year})"] when [year] is truthy. *)
Definition normalized `{PyBuiltins} (title : Value) (year : option Z) : Value :=
  match year with
  | Some y => if y =? 0 then title
              else VStr (py_str title +:+ " (" +:+ pretty y +:+ ")")
  | None => title
  end.

Definition _find_youtube_video_id (query : Value) (api_key : string) : M World Value :=
  let url := "https://www.googleapis.com/youtube/v3/search" in
  let params := [("part", VStr "snippet"); ("maxResults", VInt 5); ("q", query);
                 ("type", VStr "video"); ("key", VStr api_key)] in
  try_except
    (do resp <- http (mkRequest GET url [] params VNone 10000) ;
     run lift_exc (raise_for_status resp) ;
     do data <- lift_exc (resp_json resp) ;
     do items <- lift_exc (py_get data "items" (VList [])) ;
     if negb (truthy items) then ret VNone
     else
       do first <- lift_exc (py_getitem_0 items) ;
       do id <- lift_exc (py_getitem_str first "id") ;
       lift_exc (py_getitem_str id "videoId"))
    (ret VNone).

Definition search_link {S} (prefix : string) (q : Value) : M S string :=
  do query <- lift_exc (quote_plus_value q) ;
  ret (prefix +:+ query).

Definition resolve_provider_link `{PyBuiltins} (title media_type : Value) (tmdb_id : Z)
    (year : option Z) (provider : string) : M World string :=
  let normalized := normalized title year in
  if String.eqb provider "netflix" then
    search_link "https://www.netflix.com/search?q=" normalized
  else if String.eqb provider "max" then
    search_link "https://play.max.com/search?q=" normalized
  else if String.eqb provider "discovery" then
    search_link "https://discoveryplus.com/search?q=" normalized
  else if String.eqb provider "youtube" then
    let fallback :=
      search_link "https://www.youtube.com/results?search_query="
                  (VStr (py_str normalized +:+ " full movie")) in
    do api_key <- gets (fun w => environ w "YOUTUBE_DATA_API_KEY") ;
    match api_key with
    | Some k =>
        if truthy (VStr k) then
          do video_id <- _find_youtube_video_id normalized k ;
          if truthy video_id
          then ret ("https://www.youtube.com/watch?v=" +:+ py_str video_id)
          else fallback
        else fallback
    | None => fallback
    end
  else if String.eqb provider "youtube_tv" then
    search_link "https://tv.youtube.com/search?q=" normalized
  else
    search_link "https://www.google.com/search?q=" normalized.

Definition device_of (s : Value) : Exc Value :=
  match s with
  | VDict d =>
      let device_name := py_or (py_or (dict_get d "DeviceName" VNone)
                                      (dict_get d "DeviceId" VNone)) (VStr "Unknown") in
      let client := py_or (py_or (dict_get d "Client" VNone)
                                 (dict_get d "DeviceType" VNone)) (VStr "") in
      let controllable := truthy (dict_get d "SupportsRemoteControl" VNone) in
      Ok (VDict [("id", dict_get d "Id" VNone); ("device_name", device_name);
                 ("client", client); ("controllable", VBool controllable)])
  | _ => Raise AttributeError
  end.

Definition list_playback_devices : M World Value :=
  do sessions <- jellyfin.list_sessions ;
  do ss <- lift_exc (py_iter sessions) ;
  do devices <- mapM (fun s => lift_exc (device_of s)) ss ;
  ret (VList devices).

Definition send_to_device (session_id item_id : string) : M World Value :=
  jellyfin.play_item session_id item_id.

End provider.

(** ** app/services/jellyseerr.py *)

Module jellyseerr.

Record JellyseerrClient : Type := mkJellyseerrClient {
  base : string;
  api_key : string;
  user_id : option string;
  default_headers : list (string * string)
}.

Definition __init__ (base_url api_key : string) (user_id : option string) : JellyseerrClient :=
  mkJellyseerrClient (rstrip_slash base_url) api_key user_id
    [("X-Api-Key", api_key); ("accept", "application/json")].

Definition from_env (env : string -> option string) : JellyseerrClient :=
  __init__ (getenv env "JELLYSEERR_URL" "http://localhost:5055")
           (getenv env "JELLYSEERR_API_KEY" "")
           (env "JELLYSEERR_USER_ID").

(** The body posted by [request]: [userId] is added when one is configured. *)
Definition payload (self : JellyseerrClient) (media_type : string) (tmdb_id : Z)
    : list (string * Value) :=
  let payload := [("mediaType", VStr media_type); ("mediaId", VInt tmdb_id)] in
  match user_id self with
  | Some u => if truthy (VStr u) then dict_set "userId" (VStr u) payload else payload
  | None => payload
  end.

Definition request (self : JellyseerrClient) (media_type : string) (tmdb_id : Z)
    : M World Value :=
  let url := base self +:+ "/api/v1/request" in
  do resp <- http (mkRequest POST url (default_headers self) []
                     (VDict (payload self media_type tmdb_id)) 15000) ;
  if resp_ok resp then
    do data <- lift_exc (resp_json resp) ;
    ret (VDict [("ok", VBool true); ("data", data)])
  else
    ret (VDict [("ok", VBool false); ("status", VInt (status_code resp));
                ("error", VStr (text resp))]).

End jellyseerr.

(** ** app/main.py *)

Module main.

(** What a route hands back to the framework.  The [request] entry of
    a template context is left out. *)
Inductive PageResponse : Type :=
| TemplateResponse (name : string) (context : list (string * Value))
| RedirectResponse (url : string) (status : Z).

Definition row (title : string) (items : Value) (kind : string) : Value :=
  VDict [("title", VStr title); ("items", items); ("kind", VStr kind)].

(** [GET /] *)
Definition home `{PyBuiltins} : M World PageResponse :=
  do continue_watching <-
    try_except (jellyfin.get_continue_watching 24) (ret (VList [])) ;
  do recently_added <-
    try_except (jellyfin.get_recently_added 24) (ret (VList [])) ;
  do recommended_download <-
    try_except (recommender.recommend_download 12) (ret (VList [])) ;
  do trending <-
    try_except (tmdb.get_trending 12) (ret (VList [])) ;
  do stream_picks <-
    try_except (tmdb.get_streaming_highlights 12) (ret (VList [])) ;
  let rows := VList [
    row "Continue Watching" continue_watching "jellyfin";
    row "Recently Added" recently_added "jellyfin";
    row "Recommended to Download" recommended_download "tmdb";
    row "Trending Now" trending "tmdb";
    row "Streaming Highlights" stream_picks "tmdb" ] in
  do jellyfin_url <- jellyfin._base ;
  ret (TemplateResponse "home.html" [("rows", rows); ("jellyfin_url", VStr jellyfin_url)]).

(** [s.split("-")[0]] *)
Fixpoint before_dash (s : string) : string :=
  match s with
  | EmptyString => EmptyString
  | String c r => if Ascii.eqb c "-" then EmptyString else String c (before_dash r)
  end.

(** The [year_int] computed from the release date, [try]/[except] included. *)
Definition year_int_of `{PyBuiltins} (year : Value) : option Z :=
  if truthy year then
    match year with
    | VStr s => py_int (before_dash s)
    | _ => None
    end
  else None.

Definition rating_value (r : option Z) : Value :=
  match r with Some n => VInt n | None => VNone end.

Definition provider_names : list string :=
  ["netflix"; "max"; "discovery"; "youtube"; "youtube_tv"].

(** [GET /title/{kind}/{item_id}] *)
Definition title_detail `{PyBuiltins} (kind item_id : string) (media_type : option string)
    : M World PageResponse :=
  if String.eqb kind "jellyfin" then
    do item <- try_except (jellyfin.get_item item_id)
                          (raise (HTTPException 404 "Item not found")) ;
    do devices <- provider.list_playback_devices ;
    do play_url <- jellyfin.stream_url item_id ;
    do rating <- gets (fun w => db.get_rating "jellyfin" item_id (ratings w)) ;
    ret (TemplateResponse "title.html"
           [("kind", VStr kind); ("item", item); ("devices", devices);
            ("play_url", VStr play_url); ("rating", rating_value rating)])
  else
    let media_type := match media_type with None => "movie" | Some m => m end in
    do tmdb_id <- lift_exc (match py_int item_id with
                            | Some n => Ok n
                            | None => Raise ValueError
                            end) ;
    do item <- try_except (tmdb.get_details media_type tmdb_id)
                          (raise (HTTPException 404 "Item not found")) ;
    do in_library <- jellyfin.is_in_library (VInt tmdb_id) (VStr media_type) ;
    do release_date <- lift_exc (py_get item "release_date" VNone) ;
    do year <- (if truthy release_date then ret release_date
                else lift_exc (py_get item "first_air_date" VNone)) ;
    let year_int := year_int_of year in
    do provider_links <-
      mapM (fun name =>
              do t <- lift_exc (py_get item "title" VNone) ;
              do title <- (if truthy t then ret t
                           else lift_exc (py_get item "name" VNone)) ;
              do url <- provider.resolve_provider_link
                          title (VStr media_type) tmdb_id year_int name ;
              ret (name, VStr url))
           provider_names ;
    do rating <- gets (fun w => db.get_rating "tmdb"
                                  (media_type +:+ ":" +:+ pretty tmdb_id) (ratings w)) ;
    ret (TemplateResponse "title.html"
           [("kind", VStr "tmdb"); ("item", item); ("media_type", VStr media_type);
            ("in_library", VBool in_library); ("providers", VDict provider_links);
            ("provider_links", VDict provider_links); ("rating", rating_value rating)]).

(** [POST /rate]; [now] is the clock reading when the statement runs. *)
Definition rate_item (now : Z) (source key : string) (stars : Z) : M World PageResponse :=
  run update_ratings (db.upsert_rating now source key stars) ;
  ret (RedirectResponse "/" 303).

(** [POST /send-to-device] *)
Definition send_to_device (item_id session_id : string) : M World PageResponse :=
  run try_except (run provider.send_to_device session_id item_id ; ret tt) (ret tt) ;
  ret (RedirectResponse ("/title/jellyfin/" +:+ item_id) 303).

End main.

(** ** Running the model on concrete inputs *)

(** Decimal [int()] for ASCII digits with an optional sign, and a
    placeholder [repr]: enough to run the examples below. *)
Fixpoint digits_value (acc : Z) (s : string) : option Z :=
  match s with
  | EmptyString => Some acc
  | String c r =>
      let n := Z.of_N (N_of_ascii c) in
      if (48 <=? n) && (n <=? 57) then digits_value (10 * acc + (n - 48)) r else None
  end.

Definition ascii_int (s : string) : option Z :=
  match s with
  | EmptyString => None
  | String "-" (String c r) => option_map Z.opp (digits_value 0 (String c r))
  | String "+" (String c r) => digits_value 0 (String c r)
  | _ => digits_value 0 s
  end.

Definition ascii_builtins : PyBuiltins :=
  {| py_repr := fun _ => "<container>"; py_int := ascii_int |}.

(** ** Vocabulary of the statements *)

(** The primary-key constraint of the [ratings] table. *)
Definition key_of (r : db.Row) : string * string := (db.source r, db.key r).

Definition pk_unique (t : db.Table) : Prop := NoDup (List.map key_of t).

(** The rows stored under a key, and a row without its timestamp. *)
Definition rows_for (s k : string) (t : db.Table) : list db.Row :=
  List.filter (db.same_key s k) t.

Definition rated (r : db.Row) : string * string * Z := (db.source r, db.key r, db.stars r).

(** [clamp(x, 1, 5)] *)
Definition clamp (x : Z) : Z := Z.max 1 (Z.min 5 x).

(** Whether the reachability probe sent from [w] gets an answer, and the
    base URL [_base] settles on in consequence. *)
Definition probe_ok (w : World) : bool :=
  match upstream w (trace w) (jellyfin.head_probe (jellyfin_obj w)) with
  | inr _ => true
  | inl _ => false
  end.

Definition chosen_base (w : World) : string :=
  if probe_ok w then lan_url (jellyfin_obj w) else wan_url (jellyfin_obj w).

(** The request [_get] sends once the base is chosen. *)
Definition get_request (w : World) (path : string) (params : list (string * Value)) : Request :=
  mkRequest GET (chosen_base w +:+ path) (default_headers (jellyfin_obj w)) params VNone 10000.

Definition to_base (b : string) (r : Request) : Prop :=
  method r <> HEAD /\ exists path, url r = b +:+ path.

(** [m] starts with a reachability probe of its own, sends everything
    else to the base that probe selects, and leaves the client object as
    it found it. *)
Definition fresh_probe {A} (m : M World A) : Prop :=
  forall w,
    jellyfin_obj (snd (m w)) = jellyfin_obj w /\
    exists rest,
      trace (snd (m w)) = trace w ++ jellyfin.head_probe (jellyfin_obj w) :: rest /\
      Forall (to_base (chosen_base w)) rest.

(** The request behind [get_trending]. *)
Definition trending_request (self : TMDBClient) : Request :=
  mkRequest GET (base self +:+ "/trending/all/week") []
    (("api_key", VStr (tmdb_api_key self))
       :: (if truthy (VStr (language self)) then [("language", VStr (language self))] else []))
    VNone 10000.

(** The display string of [resolve_provider_link] for a [str] title. *)
Definition normalized_text (title : string) (year : option Z) : string :=
  match year with
  | Some y => if y =? 0 then title else title +:+ " (" +:+ pretty y +:+ ")"
  | None => title
  end.

Definition provider_enumeration : list string :=
  ["netflix"; "max"; "discovery"; "youtube"; "youtube_tv"].

Definition is_url (u : string) : Prop := String.prefix "https://" u = true.

(** The request [_find_youtube_video_id] sends. *)
Definition video_search_request (query : Value) (api_key : string) : Request :=
  mkRequest GET "https://www.googleapis.com/youtube/v3/search" []
    [("part", VStr "snippet"); ("maxResults", VInt 5); ("q", query);
     ("type", VStr "video"); ("key", VStr api_key)] VNone 10000.

(** A membership predicate that records the arguments of every call
    made to it, oldest first. *)
Definition CallLog : Type := list (Value * Value).

Definition spy (p : Value -> Value -> bool) : Value -> Value -> M CallLog bool :=
  fun tmdb_id media_type log => (Ok (p tmdb_id media_type), log ++ [(tmdb_id, media_type)]).

(** [item.get("id")] and the media type the loop computes for [item]. *)
Definition item_id (item : Value) : Value :=
  match py_get item "id" VNone with Ok v => v | Raise _ => VNone end.

Definition item_media_type (item : Value) : Value :=
  match recommender.media_type_of item with Ok v => v | Raise _ => VNone end.

Definition has_id (item : Value) : bool := negb (is_none (item_id item)).

Definition call_of (item : Value) : Value * Value := (item_id item, item_media_type item).

Definition not_owned (p : Value -> Value -> bool) (item : Value) : bool :=
  negb (p (item_id item) (item_media_type item)).

Definition wanted (p : Value -> Value -> bool) (item : Value) : bool :=
  has_id item && not_owned p item.

(** The recommendation filter in the words of the contract: drop what
    the predicate owns, keep the order, cut at [limit]. *)
Definition filter_then_truncate (p : Value -> Value -> bool) (limit : Z)
    (candidates : list Value) : list Value :=
  py_slice_to limit (List.filter (not_owned p) candidates).

(** The candidates the loop looks at when it still needs [n] results:
    everything up to and including the [n]-th wanted one. *)
Fixpoint scanned (p : Value -> Value -> bool) (n : nat) (candidates : list Value) : list Value :=
  match candidates with
  | [] => []
  | x :: rest =>
      match n with
      | O => []
      | S m => x :: scanned p (if wanted p x then m else n) rest
      end
  end.

(** The predicate of the example: only the title with id 2 is owned. *)
Definition owns_2 (tmdb_id media_type : Value) : bool :=
  match tmdb_id with VInt 2 => true | _ => false end.

Definition never_owned (tmdb_id media_type : Value) : bool := false.

(** What a home-page row shows for the outcome of its client call. *)
Definition or_empty (r : Exc Value) : Value :=
  match r with
  | Ok v => v
  | Raise _ => VList []
  end.

(** Client objects and worlds for the examples. *)
Definition example_jellyfin : JellyfinClient :=
  mkJellyfinClient "http://lan:8096" "http://wan:8096" "secret" "u1"
    [("X-Emby-Token", "secret"); ("accept", "application/json")].

Definition example_tmdb : TMDBClient :=
  mkTMDBClient "tmdbkey" "US" "en-US" "https://api.themoviedb.org/3".

Definition ok_json (v : Value) : NetFailure + Response :=
  inr (mkResponse 200 "" (Some v)).

(** TMDB answers with the details of a film; Jellyfin is unreachable. *)
Definition jellyfin_down : World :=
  mkWorld
    (fun _ r =>
       if String.prefix "https://api.themoviedb.org/3" (url r)
       then ok_json (VDict [("title", VStr "Inception"); ("release_date", VStr "2010-07-16")])
       else inl ConnectionFailed)
    (fun _ => None) [] example_jellyfin example_tmdb [].

(** Jellyfin serves items, but its session list times out. *)
Definition sessions_down : World :=
  mkWorld
    (fun _ r =>
       if String.eqb (url r) "http://lan:8096/Sessions"
       then inl TimedOut
       else ok_json (VDict [("Name", VStr "Inception")]))
    (fun _ => None) [] example_jellyfin example_tmdb [].

(** Both services answer, but TMDB sends a list where an object is due. *)
Definition tmdb_malformed : World :=
  mkWorld
    (fun _ r =>
       if String.prefix "https://api.themoviedb.org/3" (url r)
       then ok_json (VList [])
       else ok_json (VDict [("TotalRecordCount", VInt 0)]))
    (fun _ => None) [] example_jellyfin example_tmdb [].

(** A search credential is configured and the video search finds one video. *)
Definition youtube_ready : World :=
  mkWorld
    (fun _ _ => ok_json (VDict [("items",
                  VList [VDict [("id", VDict [("kind", VStr "youtube#video");
                                              ("videoId", VStr "YoHD9XEInc0")])]])]))
    (fun name => if String.eqb name "YOUTUBE_DATA_API_KEY" then Some "yt-key" else None)
    [] example_jellyfin example_tmdb [].

(** The LAN server answers the first probe only. *)
Definition leaving_home : World :=
  mkWorld
    (fun history _ => match history with
                      | [] => ok_json VNone
                      | _ => inl TimedOut
                      end)
    (fun _ => None) [] example_jellyfin example_tmdb [].

(** Stars within the scale, and the table a sequence of [upsert_rating]
    calls builds from the empty one; a call is [(now, (source, key), stars)]. *)
Definition in_range (r : db.Row) : Prop := 1 <= db.stars r <= 5.

Definition replay (calls : list (Z * (string * string) * Z)) : db.Table :=
  fold_left (fun t c => db.upsert_rating (fst (fst c)) (fst (snd (fst c))) (snd (snd (fst c)))
                          (snd c) t)
            calls [].

(** The characters a quoted query is made of. *)
Definition url_safe (c : ascii) : bool :=
  always_safe c || Ascii.eqb c "+" || Ascii.eqb c "%".

(** Reading a quoted query back, byte by byte: [+] is a space and [%XY]
    the byte with hexadecimal code [XY]. *)
Definition hex_value (c : ascii) : option N :=
  let n := N_of_ascii c in
  if (48 <=? n)%N && (n <=? 57)%N then Some (n - 48)%N
  else if (65 <=? n)%N && (n <=? 70)%N then Some (n - 55)%N
  else if (97 <=? n)%N && (n <=? 102)%N then Some (n - 87)%N
  else None.

Fixpoint unquote_plus (s : string) : string :=
  match s with
  | EmptyString => EmptyString
  | String c r =>
      if Ascii.eqb c "+" then String " " (unquote_plus r)
      else if Ascii.eqb c "%" then
        match r with
        | String h (String l r') =>
            match hex_value h, hex_value l with
            | Some a, Some b => String (ascii_of_N (16 * a + b)) (unquote_plus r')
            | _, _ => String c (unquote_plus r)
            end
        | _ => String c (unquote_plus r)
        end
      else String c (unquote_plus r)
  end.

(** Whether a string ends with [/], and the string of [n] slashes. *)
Fixpoint ends_with_slash (s : string) : bool :=
  match s with
  | EmptyString => false
  | String c EmptyString => Ascii.eqb c "/"
  | String _ r => ends_with_slash r
  end.

Fixpoint slashes (n : nat) : string :=
  match n with
  | O => EmptyString
  | S m => String "/" (slashes m)
  end.

(** The link [resolve_provider_link] falls back to for youtube. *)
Definition fallback_url (title : string) (year : option Z) : string :=
  "https://www.youtube.com/results?search_query="
  +:+ quote_plus (normalized_text title year +:+ " full movie").

(** Answers to the video search that yield no video id: no answer, an
    error status, a body that is not JSON, or an object whose [items] is
    missing or empty. *)
Definition lookup_fails (answer : NetFailure + Response) : Prop :=
  match answer with
  | inl _ => True
  | inr resp =>
      resp_ok resp = false
      \/ json_body resp = None
      \/ exists d, json_body resp = Some (VDict d)
                   /\ truthy (dict_get d "items" (VList [])) = false
  end.

(** An answer whose first item carries the video id [v]. *)
Definition lookup_finds (v : string) (answer : NetFailure + Response) : Prop :=
  match answer with
  | inl _ => False
  | inr resp =>
      resp_ok resp = true
      /\ exists d first more idd,
           json_body resp = Some (VDict d)
           /\ dict_get d "items" (VList []) = VList (VDict first :: more)
           /\ assoc "id" first = Some (VDict idd)
           /\ assoc "videoId" idd = Some (VStr v)
  end.

(** A credential is configured, but the video search is unreachable. *)
Definition youtube_unreachable : World :=
  mkWorld (fun _ _ => inl TimedOut)
    (fun name => if String.eqb name "YOUTUBE_DATA_API_KEY" then Some "yt-key" else None)
    [] example_jellyfin example_tmdb [].

(** TMDB lists three trending titles; the library holds the second. *)
Definition catalogue : World :=
  mkWorld
    (fun _ r =>
       if String.prefix "https://api.themoviedb.org/3" (url r)
       then ok_json (VDict [("page", VInt 1);
                            ("results", VList [VDict [("id", VInt 1); ("title", VStr "Dune")];
                                               VDict [("id", VInt 2); ("name", VStr "Severance")];
                                               VDict [("id", VInt 3); ("title", VStr "Heat")]])])
       else match assoc "AnyProviderIdEquals" (params r) with
            | Some (VStr "tmdb.2") => ok_json (VDict [("TotalRecordCount", VInt 1)])
            | _ => ok_json (VDict [("TotalRecordCount", VInt 0)])
            end)
    (fun _ => None) [] example_jellyfin example_tmdb [].

(** [m] does nothing to the state beyond sending requests. *)
Definition only_sends {A} (m : M World A) : Prop :=
  forall w, exists rs, snd (m w) = fold_left (fun w r => sent r w) rs w.

(** [w'] is [w] with a longer trace and nothing else changed. *)
Definition same_but_trace (w w' : World) : Prop :=
  ratings w' = ratings w
  /\ environ w' = environ w
  /\ jellyfin_obj w' = jellyfin_obj w
  /\ tmdb_obj w' = tmdb_obj w
  /\ upstream w' = upstream w
  /\ exists rs, trace w' = trace w ++ rs.

(** The rating a rendered page carries in its context. *)
Definition shows_rating (resp : main.PageResponse) (v : Value) : Prop :=
  match resp with
  | main.TemplateResponse _ context => assoc "rating" context = Some v
  | main.RedirectResponse _ _ => False
  end.

(** The request [play_item] sends once the base is chosen. *)
Definition play_request (w : World) (session_id item_id : string) : Request :=
  mkRequest POST (chosen_base w +:+ "/Sessions/" +:+ session_id +:+ "/Playing")
    (default_headers (jellyfin_obj w)) []
    (VDict [("ItemIds", VList [VStr item_id]); ("PlayCommand", VStr "PlayNow")]) 10000.


(** The request [jellyseerr.request] sends. *)
Definition jellyseerr_request (self : jellyseerr.JellyseerrClient) (media_type : string)
    (tmdb_id : Z) : Request :=
  mkRequest POST (jellyseerr.base self +:+ "/api/v1/request") (jellyseerr.default_headers self)
    [] (VDict (jellyseerr.payload self media_type tmdb_id)) 15000.

(** Jellyfin reports two sessions, the second without a device name. *)
Definition two_sessions : World :=
  mkWorld
    (fun _ _ => ok_json (VList [
        VDict [("Id", VStr "s1"); ("DeviceName", VStr "Living room");
               ("Client", VStr "Jellyfin tvOS"); ("SupportsRemoteControl", VBool true)];
        VDict [("Id", VStr "s2"); ("DeviceName", VStr "")] ]))
    (fun _ => None) [] example_jellyfin example_tmdb [].

(** An older server answers the resume query with a bare list. *)
Definition bare_list_server : World :=
  mkWorld (fun _ _ => ok_json (VList [VDict [("Id", VStr "i1")]]))
    (fun _ => None) [] example_jellyfin example_tmdb [].

(** Both services answer: TMDB with a film, Jellyfin with an empty library. *)
Definition tmdb_page : World :=
  mkWorld
    (fun _ r =>
       if String.prefix "https://api.themoviedb.org/3" (url r)
       then ok_json (VDict [("title", VStr "Inception"); ("release_date", VStr "2010-07-16")])
       else ok_json (VDict [("TotalRecordCount", VInt 0)]))
    (fun _ => None) [] example_jellyfin example_tmdb [].

(** * Properties *)

(** ** The ratings table *)

Section ratings_table.
Import db.

Lemma same_key_true s k r : same_key s k r = true <-> (s, k) = key_of r.
Proof.
  unfold same_key, key_of. rewrite andb_true_iff, !String.eqb_eq.
  split; [intros [-> ->]; reflexivity | intros [= -> ->]; auto].
Qed.

Lemma same_key_refl s k v n : same_key s k (mkRow s k v n) = true.
Proof. apply same_key_true. reflexivity. Qed.

Lemma rows_for_absent s k t :
  (s, k) ∉ List.map key_of t -> rows_for s k t = [].
Proof.
  unfold rows_for. induction t as [|r t IH]; simpl; intros Hnotin; [reflexivity|].
  apply not_elem_of_cons in Hnotin as [Hne Hrest].
  destruct (same_key s k r) eqn:E.
  - apply same_key_true in E. contradiction.
  - auto.
Qed.

Lemma get_after_insert_or_update s k v n t :
  get_rating s k (insert_or_update (mkRow s k v n) t) = Some v.
Proof.
  unfold get_rating. induction t as [|r t IH]; simpl.
  - rewrite same_key_refl. reflexivity.
  - destruct (same_key s k r) eqn:E; simpl.
    + apply same_key_true in E. injection E as Hs Hk.
      rewrite <- Hs, <- Hk, same_key_refl. reflexivity.
    + rewrite E. exact IH.
Qed.

Lemma keys_insert_or_update new t :
  List.map key_of (insert_or_update new t) =
  if existsb (same_key (source new) (key new)) t
  then List.map key_of t
  else List.map key_of t ++ [key_of new].
Proof.
  induction t as [|r t IH]; simpl; [reflexivity|].
  destruct (same_key (source new) (key new) r) eqn:E; simpl; [reflexivity|].
  rewrite IH. destruct (existsb _ t); reflexivity.
Qed.

Lemma existsb_same_key_false s k t :
  existsb (same_key s k) t = false -> (s, k) ∉ List.map key_of t.
Proof.
  induction t as [|r t IH]; simpl; intros H.
  - apply not_elem_of_nil.
  - apply orb_false_iff in H as [Hr Ht]. apply not_elem_of_cons. split; [|auto].
    intros Heq. apply same_key_true in Heq. congruence.
Qed.

(** The primary key stays unique: it holds of the empty table that
    [init_db] creates and every [upsert_rating] keeps it. *)
Lemma pk_unique_empty : pk_unique [].
Proof. apply NoDup_nil_2. Qed.

Lemma pk_unique_upsert now s k x t :
  pk_unique t -> pk_unique (upsert_rating now s k x t).
Proof.
  unfold pk_unique, upsert_rating. intros Hnd.
  rewrite keys_insert_or_update. simpl.
  destruct (existsb (same_key s k) t) eqn:E; [exact Hnd|].
  apply NoDup_app. split; [exact Hnd|]. split.
  - intros kk Hin Hin'. apply list_elem_of_singleton in Hin'. subst kk.
    apply existsb_same_key_false in E. contradiction.
  - apply NoDup_singleton.
Qed.

Lemma rows_for_insert_or_update s k v n t :
  pk_unique t ->
  List.map rated (rows_for s k (insert_or_update (mkRow s k v n) t)) = [(s, k, v)].
Proof.
  unfold pk_unique, rows_for.
  induction t as [|r t IH]; simpl; intros Hnd.
  - rewrite same_key_refl. reflexivity.
  - apply NoDup_cons in Hnd as [Hfresh Hnd].
    destruct (same_key s k r) eqn:E; simpl.
    + apply same_key_true in E. unfold key_of in E. injection E as Hs Hk.
      rewrite <- Hs, <- Hk, same_key_refl. simpl.
      fold (rows_for s k t). rewrite rows_for_absent; [reflexivity|].
      unfold key_of at 1 in Hfresh. rewrite <- Hs, <- Hk in Hfresh. exact Hfresh.
    + rewrite E. auto.
Qed.

Lemma insert_or_update_again s k v n1 n2 t :
  List.map rated (insert_or_update (mkRow s k v n2) (insert_or_update (mkRow s k v n1) t))
  = List.map rated (insert_or_update (mkRow s k v n1) t).
Proof.
  induction t as [|r t IH]; simpl.
  - rewrite same_key_refl. reflexivity.
  - destruct (same_key s k r) eqn:E; simpl.
    + apply same_key_true in E. unfold key_of in E. injection E as Hs Hk.
      rewrite <- Hs, <- Hk, same_key_refl. reflexivity.
    + rewrite E. simpl. f_equal. exact IH.
Qed.

(** C1: whatever integer [x] the caller passes, [get_rating] after
    [upsert_rating ... x] returns [max(1, min(5, x))]. *)
Theorem get_after_upsert_is_clamped (now : Z) (s k : string) (x : Z) (t : Table) :
  get_rating s k (upsert_rating now s k x t) = Some (Z.max 1 (Z.min 5 x)).
Proof. unfold upsert_rating. apply get_after_insert_or_update. Qed.

(** C7: on a table that satisfies its primary key, two successive
    [upsert_rating] calls on the same [(source, key)] leave exactly one
    row for that key, and it holds the clamped stars of the second call;
    repeating the same call leaves every stored [(source, key, stars)]
    as it was. *)
Theorem upsert_twice_one_row (t : Table) (n1 n2 : Z) (s k : string) (x y : Z) :
  pk_unique t ->
  List.map rated (rows_for s k (upsert_rating n2 s k y (upsert_rating n1 s k x t)))
    = [(s, k, clamp y)]
  /\ get_rating s k (upsert_rating n2 s k y (upsert_rating n1 s k x t)) = Some (clamp y)
  /\ List.map rated (upsert_rating n2 s k x (upsert_rating n1 s k x t))
     = List.map rated (upsert_rating n1 s k x t).
Proof.
  intros Hpk. split; [|split].
  - unfold upsert_rating at 1. apply rows_for_insert_or_update.
    apply pk_unique_upsert, Hpk.
  - apply get_after_insert_or_update.
  - unfold upsert_rating. apply insert_or_update_again.
Qed.

Lemma upsert_twice_one_row_witness :
  pk_unique [mkRow "tmdb" "movie:27205" 3 0]
  /\ List.map rated
       (rows_for "tmdb" "movie:27205"
          (upsert_rating 2 "tmdb" "movie:27205" 9
             (upsert_rating 1 "tmdb" "movie:27205" 4 [mkRow "tmdb" "movie:27205" 3 0])))
     = [("tmdb", "movie:27205", 5)].
Proof.
  assert (Hpk : pk_unique [mkRow "tmdb" "movie:27205" 3 0]).
  { unfold pk_unique. simpl. apply NoDup_singleton. }
  split; [exact Hpk|].
  exact (proj1 (upsert_twice_one_row _ 1 2 "tmdb" "movie:27205" 4 9 Hpk)).
Defined.

End ratings_table.

(** ** The Jellyfin client *)

Section jellyfin_client.
Context `{PyBuiltins}.

Lemma base_run w :
  jellyfin._base w = (Ok (chosen_base w), sent (jellyfin.head_probe (jellyfin_obj w)) w).
Proof.
  unfold jellyfin._base, bind, gets, try_except, http, ret, chosen_base, probe_ok.
  destruct (upstream w (trace w) _); reflexivity.
Qed.

Lemma get_world path params w :
  snd (jellyfin._get path params w)
  = sent (get_request w path params) (sent (jellyfin.head_probe (jellyfin_obj w)) w).
Proof.
  unfold jellyfin._get, bind. rewrite base_run. unfold gets, http. simpl.
  destruct (upstream w _ _) as [why|resp]; [reflexivity|].
  unfold lift_exc. destruct (raise_for_status resp); reflexivity.
Qed.

Lemma fresh_probe_after_probe {A} (m : M World A) :
  (forall w, exists rest,
      snd (m w) = fold_left (fun w r => sent r w) rest
                            (sent (jellyfin.head_probe (jellyfin_obj w)) w)
      /\ Forall (to_base (chosen_base w)) rest) ->
  fresh_probe m.
Proof.
  intros Hm w. destruct (Hm w) as (rest & -> & Hrest).
  assert (Hfold : forall rs w0,
             jellyfin_obj (fold_left (fun w r => sent r w) rs w0) = jellyfin_obj w0
             /\ trace (fold_left (fun w r => sent r w) rs w0) = trace w0 ++ rs).
  { induction rs as [|r rs IH]; intros w0; simpl.
    - rewrite app_nil_r. auto.
    - destruct (IH (sent r w0)) as [-> ->]. simpl. rewrite <- app_assoc. auto. }
  destruct (Hfold rest (sent (jellyfin.head_probe (jellyfin_obj w)) w)) as [-> ->].
  simpl. split; [reflexivity|]. exists rest. rewrite <- app_assoc. auto.
Qed.

Lemma to_base_get w path params : to_base (chosen_base w) (get_request w path params).
Proof. split; [discriminate|]. exists path. reflexivity. Qed.

Lemma fresh_probe_get path params : fresh_probe (jellyfin._get path params).
Proof.
  apply fresh_probe_after_probe. intros w. exists [get_request w path params].
  rewrite get_world. split; [reflexivity|].
  constructor; [apply to_base_get | constructor].
Qed.

(** A computation that only reads the state before handing over, or
    only post-processes the result, keeps the property. *)
Lemma fresh_probe_gets {A B} (f : World -> A) (k : A -> M World B) :
  (forall a, fresh_probe (k a)) -> fresh_probe (bind (gets f) k).
Proof. intros Hk w. unfold bind, gets. apply Hk. Qed.

Lemma fresh_probe_then_pure {A B} (m : M World A) (g : A -> Exc B) :
  fresh_probe m -> fresh_probe (bind m (fun a => lift_exc (g a))).
Proof.
  intros Hm w. specialize (Hm w). unfold bind, lift_exc.
  destruct (m w) as [[a|e] w']; exact Hm.
Qed.

(** Reachability is looked at afresh: the same client picks the LAN
    address on one call and the WAN address on the next. *)
Example base_follows_reachability :
  let first := jellyfin._base leaving_home in
  let second := jellyfin._base (snd first) in
  fst first = Ok "http://lan:8096" /\ fst second = Ok "http://wan:8096".
Proof. split; reflexivity. Qed.

(** C8: every operation of the Jellyfin client opens with a probe of
    the LAN address made on that very call, uses the LAN address when the
    probe is answered and the WAN address otherwise, and leaves the
    fields of the client object unchanged. *)
Theorem jellyfin_probes_on_every_call :
  (forall w, fst (jellyfin._base w) = Ok (chosen_base w))
  /\ fresh_probe jellyfin._base
  /\ (forall path params, fresh_probe (jellyfin._get path params))
  /\ (forall limit, fresh_probe (jellyfin.get_recently_added limit))
  /\ (forall limit, fresh_probe (jellyfin.get_continue_watching limit))
  /\ (forall item_id, fresh_probe (jellyfin.get_item item_id))
  /\ (forall tmdb_id media_type, fresh_probe (jellyfin.is_in_library tmdb_id media_type))
  /\ (forall item_id, fresh_probe (jellyfin.stream_url item_id))
  /\ (forall item_id w, fst (jellyfin.stream_url item_id w)
        = Ok (chosen_base w +:+ "/Videos/" +:+ item_id +:+ "/stream?api_key="
              +:+ api_key (jellyfin_obj w)))
  /\ fresh_probe jellyfin.list_sessions
  /\ (forall session_id item_id, fresh_probe (jellyfin.play_item session_id item_id)).
Proof.
  repeat apply conj.
  - intros w. rewrite base_run. reflexivity.
  - apply fresh_probe_after_probe. intros w. exists [].
    rewrite base_run. simpl. auto.
  - apply fresh_probe_get.
  - intros limit. apply fresh_probe_gets. intros self. apply fresh_probe_get.
  - intros limit. apply fresh_probe_gets. intros self.
    apply (fresh_probe_then_pure _ (fun data => py_get data "Items" data)), fresh_probe_get.
  - intros item_id. apply fresh_probe_gets. intros self. apply fresh_probe_get.
  - intros tmdb_id media_type. unfold jellyfin.is_in_library.
    intros w. pose proof (fresh_probe_get "/Items"
      [("AnyProviderIdEquals", VStr ("tmdb." +:+ py_str tmdb_id))] w) as Hg.
    unfold bind, lift_exc, ret.
    destruct (jellyfin._get _ _ w) as [[data|e] w']; [|exact Hg].
    destruct (py_get data "TotalRecordCount" VNone); exact Hg.
  - intros item_id. apply fresh_probe_after_probe. intros w. exists [].
    unfold jellyfin.stream_url, bind. rewrite base_run. simpl. auto.
  - intros item_id w. unfold jellyfin.stream_url, bind. rewrite base_run. reflexivity.
  - apply fresh_probe_get.
  - intros session_id item_id. apply fresh_probe_after_probe. intros w.
    eexists [_]. unfold jellyfin.play_item, bind. rewrite base_run.
    unfold gets, http, ret. simpl.
    split.
    + destruct (upstream w _ _); reflexivity.
    + constructor; [|constructor]. split; [discriminate|].
      exists ("/Sessions/" +:+ session_id +:+ "/Playing"). reflexivity.
Qed.

Lemma trending_world limit w :
  snd (tmdb.get_trending limit w) = sent (trending_request (tmdb_obj w)) w.
Proof.
  unfold tmdb.get_trending, tmdb._get, bind, gets, http, lift_exc, trending_request.
  cbn [dict_set String.eqb Ascii.eqb Bool.eqb].
  destruct (truthy (VStr (language (tmdb_obj w)))); cbn [dict_set String.eqb Ascii.eqb Bool.eqb];
    (destruct (upstream w (trace w) _) as [why|resp]; [reflexivity|];
     destruct (raise_for_status resp); [|reflexivity];
     destruct (resp_json resp) as [data|]; [|reflexivity];
     destruct (py_get data "results" (VList [])) as [results|]; [|reflexivity];
     destruct (py_slice_value results limit); reflexivity).
Qed.

(** C9: for every limit, [get_streaming_highlights] run from a state
    gives the result of [get_trending] run from that state, with the same
    effect: the one request for the weekly trending list. *)
Theorem streaming_highlights_is_trending (limit : Z) (w : World) :
  tmdb.get_streaming_highlights limit w = tmdb.get_trending limit w
  /\ trace (snd (tmdb.get_streaming_highlights limit w))
     = trace w ++ [trending_request (tmdb_obj w)].
Proof.
  split; [reflexivity|].
  unfold tmdb.get_streaming_highlights. rewrite trending_world. reflexivity.
Qed.

End jellyfin_client.

(** ** Provider links *)

Section provider_links.
Context `{PyBuiltins}.

Lemma normalized_of_str title year :
  provider.normalized (VStr title) year = VStr (normalized_text title year).
Proof.
  unfold provider.normalized, normalized_text.
  destruct year as [y|]; [destruct (y =? 0)|]; reflexivity.
Qed.

Lemma search_link_run prefix q (w : World) :
  provider.search_link prefix (VStr q) w = (Ok (prefix +:+ quote_plus q), w).
Proof. reflexivity. Qed.

(** The video lookup swallows every failure. *)
Lemma find_video_never_raises query k w :
  exists v, fst (provider._find_youtube_video_id query k w) = Ok v.
Proof.
  unfold provider._find_youtube_video_id, try_except.
  match goal with |- context [match ?m w with _ => _ end] => destruct (m w) as [[v|e] w'] end;
    simpl; eauto.
Qed.

(** The lookup sends one request, whatever comes back. *)
Lemma find_video_world query k w :
  snd (provider._find_youtube_video_id query k w) = sent (video_search_request query k) w.
Proof.
  unfold provider._find_youtube_video_id, try_except, bind, http.
  fold (video_search_request query k).
  destruct (upstream w (trace w) _) as [why|resp]; [reflexivity|].
  unfold lift_exc, ret. destruct (raise_for_status resp); [|reflexivity].
  destruct (resp_json resp) as [data|]; [|reflexivity].
  destruct (py_get data "items" (VList [])) as [items|]; [|reflexivity].
  destruct (negb (truthy items)); [reflexivity|].
  destruct (py_getitem_0 items) as [first|]; [|reflexivity].
  destruct (py_getitem_str first "id") as [id|]; [|reflexivity].
  destruct (py_getitem_str id "videoId"); reflexivity.
Qed.

Lemma eqb_not_in (p q : string) (l : list string) :
  ~ In p (q :: l) -> String.eqb p q = false /\ ~ In p l.
Proof.
  simpl. intros Hn. split; [|tauto].
  apply String.eqb_neq. intros ->. tauto.
Qed.

Ltac link_found :=
  rewrite search_link_run; eexists; split; [reflexivity|]; split; [reflexivity|].

(** C3: for a [str] title, any media type, id, optional year and any
    provider name, in any state of the network and of the environment,
    [resolve_provider_link] returns an [https] URL and does not raise;
    for a provider name outside the enumeration the URL is the generic
    web search for the normalized query. *)
Theorem resolve_provider_link_total
    (title : string) (media_type : Value) (tmdb_id : Z) (year : option Z)
    (name : string) (w : World) :
  exists u,
    fst (provider.resolve_provider_link (VStr title) media_type tmdb_id year name w) = Ok u
    /\ is_url u
    /\ (~ In name provider_enumeration ->
        u = "https://www.google.com/search?q=" +:+ quote_plus (normalized_text title year)).
Proof.
  unfold provider.resolve_provider_link. rewrite normalized_of_str. unfold is_url.
  destruct (String.eqb name "netflix") eqn:E1.
  { apply String.eqb_eq in E1. subst. link_found. simpl. tauto. }
  destruct (String.eqb name "max") eqn:E2.
  { apply String.eqb_eq in E2. subst. link_found. simpl. tauto. }
  destruct (String.eqb name "discovery") eqn:E3.
  { apply String.eqb_eq in E3. subst. link_found. simpl. tauto. }
  destruct (String.eqb name "youtube") eqn:E4.
  { apply String.eqb_eq in E4. subst. unfold bind at 1, gets. simpl py_str.
    assert (Hfallback : forall w' : World, exists u,
               fst (provider.search_link "https://www.youtube.com/results?search_query="
                      (VStr (normalized_text title year +:+ " full movie")) w') = Ok u
               /\ String.prefix "https://" u = true
               /\ (~ In "youtube" provider_enumeration ->
                   u = "https://www.google.com/search?q="
                       +:+ quote_plus (normalized_text title year))).
    { intros w'. link_found. simpl. tauto. }
    destruct (environ w "YOUTUBE_DATA_API_KEY") as [k|]; [|apply Hfallback].
    destruct (truthy (VStr k)); [|apply Hfallback].
    unfold bind.
    destruct (find_video_never_raises (VStr (normalized_text title year)) k w) as [v Hv].
    destruct (provider._find_youtube_video_id _ k w) as [r w'].
    simpl in Hv. subst r.
    destruct (truthy v); [|apply Hfallback].
    eexists. split; [reflexivity|]. split; [reflexivity|]. simpl. tauto. }
  destruct (String.eqb name "youtube_tv") eqn:E5.
  { apply String.eqb_eq in E5. subst. link_found. simpl. tauto. }
  link_found. reflexivity.
Qed.

End provider_links.

Lemma resolve_provider_link_total_witness :
  ~ In "unknown" provider_enumeration
  /\ fst (@provider.resolve_provider_link ascii_builtins (VStr "Inception") (VStr "movie")
             27205 (Some 2010) "unknown" jellyfin_down)
     = Ok "https://www.google.com/search?q=Inception+%282010%29".
Proof.
  assert (Hout : ~ In "unknown" provider_enumeration).
  { simpl. intros [E|[E|[E|[E|[E|[]]]]]]; discriminate E. }
  split; [exact Hout|].
  destruct (@resolve_provider_link_total ascii_builtins "Inception" (VStr "movie") 27205
              (Some 2010) "unknown" jellyfin_down) as (u & Hrun & _ & Hgeneric).
  rewrite Hrun, (Hgeneric Hout). reflexivity.
Defined.


(** ** The recommendation filter *)

Section recommendation_filter.
Variable p : Value -> Value -> bool.

Lemma scanned_0 cands : scanned p 0 cands = [].
Proof. destruct cands; reflexivity. Qed.

Lemma wanted_dict d :
  wanted p (VDict d) =
  negb (is_none (dict_get d "id" VNone))
  && negb (p (dict_get d "id" VNone) (item_media_type (VDict d))).
Proof. reflexivity. Qed.

(** The loop, started with [acc] collected and [S n] results to go. *)
Lemma loop_with_spy limit cands :
  forallb is_dict cands = true ->
  forall acc log n,
    Z.of_nat (length acc) + Z.of_nat (S n) = limit ->
    recommender.recommend_loop (spy p) limit cands acc log
    = (Ok (acc ++ firstn (S n) (List.filter (wanted p) cands)),
       log ++ List.map call_of (List.filter has_id (scanned p (S n) cands))).
Proof.
  induction cands as [|item rest IH]; intros Hdict acc log n Hlim.
  - simpl. rewrite !app_nil_r. reflexivity.
  - simpl in Hdict. apply andb_true_iff in Hdict as [Hitem Hrest].
    destruct item; try discriminate Hitem.
    specialize (IH Hrest).
    assert (Hhas : has_id (VDict d) = negb (is_none (dict_get d "id" VNone)))
      by reflexivity.
    assert (Hcall : call_of (VDict d) = (dict_get d "id" VNone, item_media_type (VDict d)))
      by reflexivity.
    assert (Hstep : forall acc log,
      recommender.recommend_loop (spy p) limit (VDict d :: rest) acc log =
      if is_none (dict_get d "id" VNone)
      then recommender.recommend_loop (spy p) limit rest acc log
      else if p (dict_get d "id" VNone) (item_media_type (VDict d))
           then recommender.recommend_loop (spy p) limit rest acc (log ++ [call_of (VDict d)])
           else if Z.of_nat (length (acc ++ [VDict d])) >=? limit
                then (Ok (acc ++ [VDict d]), log ++ [call_of (VDict d)])
                else recommender.recommend_loop (spy p) limit rest (acc ++ [VDict d])
                       (log ++ [call_of (VDict d)])).
    { intros acc0 log0. cbn [recommender.recommend_loop]. unfold bind, lift_exc.
      cbn [py_get recommender.media_type_of].
      destruct (is_none (dict_get d "id" VNone)); [reflexivity|].
      unfold spy at 1. rewrite Hcall.
      change (py_or _ _) with (item_media_type (VDict d)).
      destruct (p _ _); [reflexivity|].
      destruct (_ >=? _); reflexivity. }
    rewrite Hstep. cbn [scanned List.filter]. rewrite wanted_dict, Hhas.
    destruct (is_none (dict_get d "id" VNone)) eqn:Eid; cbn [negb andb].
    + apply IH, Hlim.
    + destruct (p (dict_get d "id" VNone) (item_media_type (VDict d))) eqn:Eown;
        cbn [negb List.map].
      * rewrite (IH acc _ n Hlim). rewrite <- app_assoc. reflexivity.
      * rewrite length_app. cbn [length].
        destruct n as [|m].
        -- replace (Z.of_nat (length acc + 1) >=? limit) with true
             by (symmetry; rewrite Z.geb_leb; apply Z.leb_le; lia).
           rewrite scanned_0. reflexivity.
        -- replace (Z.of_nat (length acc + 1) >=? limit) with false
             by (symmetry; rewrite Z.geb_leb; apply Z.leb_gt; lia).
           rewrite (IH (acc ++ [VDict d]) _ m)
             by (rewrite length_app; cbn [length]; lia).
           cbn [firstn]. rewrite <- !app_assoc. reflexivity.
Qed.

(** [scanned] is a prefix of the candidates that either covers them
    all or stops right at the last result needed. *)
Lemma scanned_is_prefix cands :
  forall n, exists post,
    cands = scanned p (S n) cands ++ post
    /\ (post = []
        \/ (length (List.filter (wanted p) (scanned p (S n) cands)) = S n
            /\ exists pre' x, scanned p (S n) cands = pre' ++ [x] /\ wanted p x = true)).
Proof.
  induction cands as [|item rest IH]; intros n.
  - exists []. split; [reflexivity | left; reflexivity].
  - cbn [scanned]. destruct (wanted p item) eqn:Ew.
    + destruct n as [|m].
      * exists rest. rewrite scanned_0. split; [reflexivity|]. right.
        cbn [List.filter]. rewrite Ew. split; [reflexivity|].
        exists [], item. auto.
      * destruct (IH m) as (post & Heq & Hstop). exists post.
        split; [cbn [app]; congruence|].
        destruct Hstop as [->|(Hlen & pre' & x & Hpre & Hx)]; [left; reflexivity|right].
        cbn [List.filter]. rewrite Ew. cbn [length]. split; [congruence|].
        exists (item :: pre'), x. rewrite Hpre. auto.
    + destruct (IH n) as (post & Heq & Hstop). exists post.
      split; [cbn [app]; congruence|].
      destruct Hstop as [->|(Hlen & pre' & x & Hpre & Hx)]; [left; reflexivity|right].
      cbn [List.filter]. rewrite Ew. split; [exact Hlen|].
      exists (item :: pre'), x. rewrite Hpre. auto.
Qed.

Lemma wanted_when_id cands :
  forallb has_id cands = true ->
  List.filter (wanted p) cands = List.filter (not_owned p) cands.
Proof.
  induction cands as [|item rest IH]; simpl; intros Hall; [reflexivity|].
  apply andb_true_iff in Hall as [Hid Hrest].
  unfold wanted at 1. rewrite Hid. cbn [andb]. rewrite (IH Hrest). reflexivity.
Qed.

End recommendation_filter.

Section recommendation_claims.

Lemma slice_to_limit {A} (limit : Z) (l : list A) :
  0 <= limit -> py_slice_to limit l = firstn (Z.to_nat limit) l.
Proof.
  intros Hpos. unfold py_slice_to.
  destruct (0 <=? limit) eqn:E; [reflexivity|]. apply Z.leb_gt in E. lia.
Qed.

(** [scanned] is the shortest prefix that will do: it is the whole input
    only when that holds fewer wanted candidates than are needed, and
    otherwise it ends with the candidate that fills the last place. *)
Lemma scanned_is_minimal (p : Value -> Value -> bool) cands :
  forall n, exists post,
    cands = scanned p (S n) cands ++ post
    /\ ((post = [] /\ (length (List.filter (wanted p) cands) < S n)%nat)
        \/ (length (List.filter (wanted p) (scanned p (S n) cands)) = S n
            /\ exists pre' x, scanned p (S n) cands = pre' ++ [x] /\ wanted p x = true)).
Proof.
  induction cands as [|item rest IH]; intros n.
  - exists []. split; [reflexivity|]. left. split; [reflexivity | simpl; lia].
  - cbn [scanned]. destruct (wanted p item) eqn:Ew.
    + destruct n as [|m].
      * exists rest. rewrite scanned_0. split; [reflexivity|]. right.
        cbn [List.filter]. rewrite Ew. split; [reflexivity|].
        exists [], item. auto.
      * destruct (IH m) as (post & Heq & Hstop). exists post.
        split; [cbn [app]; congruence|].
        destruct Hstop as [[-> Hfew]|(Hlen & pre' & x & Hpre & Hx)]; [left|right].
        -- split; [reflexivity|]. cbn [List.filter]. rewrite Ew. cbn [length]. lia.
        -- cbn [List.filter]. rewrite Ew. cbn [length]. split; [congruence|].
           exists (item :: pre'), x. rewrite Hpre. auto.
    + destruct (IH n) as (post & Heq & Hstop). exists post.
      split; [cbn [app]; congruence|].
      destruct Hstop as [[-> Hfew]|(Hlen & pre' & x & Hpre & Hx)]; [left|right].
      * split; [reflexivity|]. cbn [List.filter]. rewrite Ew. exact Hfew.
      * cbn [List.filter]. rewrite Ew. split; [exact Hlen|].
        exists (item :: pre'), x. rewrite Hpre. auto.
Qed.

(** C2 (as amended): for candidates that are JSON objects and a limit
    of at least 1, the loop returns the candidates that carry an id and
    are not in the library, in input order, cut at [limit]; the
    membership predicate is called on the id-carrying candidates of a
    prefix [pre] of the input, once each and in order, and on nothing
    else.  That prefix is the whole input only when the input holds fewer
    than [limit] wanted candidates; otherwise it ends with the candidate
    that filled the [limit]-th place, so that nothing after it is passed
    to the predicate.  When every candidate carries an id the result is
    the contract's filter-then-truncate result. *)
Theorem recommend_filters_and_stops (p : Value -> Value -> bool)
    (limit : Z) (cands : list Value) :
  1 <= limit ->
  forallb is_dict cands = true ->
  exists pre post,
    cands = pre ++ post
    /\ recommender.recommend_loop (spy p) limit cands [] []
       = (Ok (firstn (Z.to_nat limit) (List.filter (wanted p) cands)),
          List.map call_of (List.filter has_id pre))
    /\ ((post = [] /\ (length (List.filter (wanted p) cands) < Z.to_nat limit)%nat)
        \/ (length (List.filter (wanted p) pre) = Z.to_nat limit
            /\ exists pre' x, pre = pre' ++ [x] /\ wanted p x = true))
    /\ (forallb has_id cands = true ->
        fst (recommender.recommend_loop (spy p) limit cands [] [])
        = Ok (filter_then_truncate p limit cands)).
Proof.
  intros Hlimit Hdict.
  assert (Hn : exists n, Z.to_nat limit = S n).
  { exists (Z.to_nat limit - 1)%nat. lia. }
  destruct Hn as [n Hn].
  pose proof (loop_with_spy p limit cands Hdict [] [] n) as Hrun.
  cbn [length app] in Hrun. rewrite Hrun by lia.
  destruct (scanned_is_minimal p cands n) as (post & Hsplit & Hstop).
  exists (scanned p (S n) cands), post. rewrite Hn.
  split; [exact Hsplit|]. split; [reflexivity|]. split; [exact Hstop|].
  intros Hids. cbn [fst]. unfold filter_then_truncate.
  rewrite slice_to_limit by lia. rewrite Hn, wanted_when_id by exact Hids.
  reflexivity.
Qed.

Lemma recommend_filters_and_stops_witness :
  let one := VDict [("id", VInt 1)] in
  let two := VDict [("id", VInt 2)] in
  let three := VDict [("id", VInt 3)] in
  1 <= 10
  /\ forallb is_dict [one; two; three] = true
  /\ forallb has_id [one; two; three] = true
  /\ fst (recommender.recommend_loop (spy owns_2) 10 [one; two; three] [] [])
     = Ok [one; three].
Proof.
  intros one two three.
  assert (Hlimit : 1 <= 10) by lia.
  assert (Hdict : forallb is_dict [one; two; three] = true) by reflexivity.
  assert (Hids : forallb has_id [one; two; three] = true) by reflexivity.
  split; [exact Hlimit|]. split; [exact Hdict|]. split; [exact Hids|].
  destruct (recommend_filters_and_stops owns_2 10 [one; two; three] Hlimit Hdict)
    as (pre & post & _ & _ & _ & Hcontract).
  rewrite (Hcontract Hids). reflexivity.
Defined.

(** With three candidates nobody owns and a limit of 1, the predicate
    is called for the first candidate and for no other. *)
Example recommend_stops_at_the_limit :
  recommender.recommend_loop (spy never_owned) 1
    [VDict [("id", VInt 1)]; VDict [("id", VInt 2)]; VDict [("id", VInt 3)]] [] []
  = (Ok [VDict [("id", VInt 1)]], [(VInt 1, VStr "movie")]).
Proof. reflexivity. Qed.

(** The claim fails as stated at two inputs: with [limit = 0] one
    candidate is returned (and the predicate is called once) where the
    truncation gives none; a candidate without an id is left out although
    the predicate does not own it. *)
Lemma recommend_is_not_filter_then_truncate :
  let one := VDict [("id", VInt 1)] in
  let anon := VDict [("title", VStr "untitled")] in
  (recommender.recommend_loop (spy never_owned) 0 [one] [] []
     = (Ok [one], [(VInt 1, VStr "movie")])
   /\ filter_then_truncate never_owned 0 [one] = [])
  /\ (recommender.recommend_loop (spy never_owned) 10 [anon] [] [] = (Ok [], [])
      /\ filter_then_truncate never_owned 10 [anon] = [anon]).
Proof. repeat split. Qed.

Lemma drop_step {S} (is_in_library : Value -> Value -> M S bool) limit x post acc s :
  py_get x "id" VNone = Ok VNone ->
  recommender.recommend_loop is_in_library limit (x :: post) acc s
  = recommender.recommend_loop is_in_library limit post acc s.
Proof.
  intros Hid. destruct x; try discriminate Hid.
  cbn [recommender.recommend_loop]. unfold bind, lift_exc.
  cbn [recommender.media_type_of]. rewrite Hid. reflexivity.
Qed.

Lemma spy_loop_ids (p : Value -> Value -> bool) limit cands :
  forall acc log,
    Forall (fun c => fst c <> VNone) log ->
    Forall (fun it => item_id it <> VNone) acc ->
    Forall (fun c => fst c <> VNone)
           (snd (recommender.recommend_loop (spy p) limit cands acc log))
    /\ match fst (recommender.recommend_loop (spy p) limit cands acc log) with
       | Ok out => Forall (fun it => item_id it <> VNone) out
       | Raise _ => True
       end.
Proof.
  induction cands as [|item rest IH]; intros acc log Hlog Hacc.
  - simpl. auto.
  - cbn [recommender.recommend_loop]. unfold bind, lift_exc.
    destruct (recommender.media_type_of item) as [mt|e]; [|simpl; auto].
    destruct (py_get item "id" VNone) as [id|e] eqn:Eget; [|simpl; auto].
    destruct (is_none id) eqn:Eid; [apply IH; assumption|].
    assert (Hid : id <> VNone) by (intros ->; discriminate Eid).
    assert (Hitem : item_id item <> VNone) by (unfold item_id; rewrite Eget; exact Hid).
    assert (Hlog' : Forall (fun c => fst c <> VNone) (log ++ [(id, mt)])).
    { apply Forall_app. split; [exact Hlog|]. constructor; [exact Hid | constructor]. }
    change (spy p id mt log) with (Ok (p id mt), log ++ [(id, mt)]).
    cbv beta iota. destruct (p id mt); [apply IH; assumption|].
    assert (Hacc' : Forall (fun it => item_id it <> VNone) (acc ++ [item])).
    { apply Forall_app. split; [exact Hacc|]. constructor; [exact Hitem | constructor]. }
    destruct (_ >=? _); [simpl; auto | apply IH; assumption].
Qed.

(** C10: a candidate whose [id] is missing or [None] is skipped without
    a trace: the run with it in the input equals, in result and in
    effects, the run without it, whatever the library check is; no
    membership call ever carries a [None] id, and no returned candidate
    lacks its id. *)
Theorem candidates_without_id_are_dropped :
  (forall S (is_in_library : Value -> Value -> M S bool) limit pre x post acc s,
      py_get x "id" VNone = Ok VNone ->
      recommender.recommend_loop is_in_library limit (pre ++ x :: post) acc s
      = recommender.recommend_loop is_in_library limit (pre ++ post) acc s)
  /\ (forall p limit cands,
        Forall (fun c => fst c <> VNone)
               (snd (recommender.recommend_loop (spy p) limit cands [] []))
        /\ match fst (recommender.recommend_loop (spy p) limit cands [] []) with
           | Ok out => Forall (fun it => item_id it <> VNone) out
           | Raise _ => True
           end).
Proof.
  split.
  - intros S is_in_library limit pre x post acc s Hid. revert acc s.
    induction pre as [|item pre IH]; intros acc s.
    + apply drop_step, Hid.
    + cbn [app recommender.recommend_loop]. unfold bind.
      destruct (lift_exc (recommender.media_type_of item) s) as [[mt|e] s1]; [|reflexivity].
      destruct (lift_exc (py_get item "id" VNone) s1) as [[id|e] s2]; [|reflexivity].
      destruct (is_none id); [apply IH|].
      destruct (is_in_library id mt s2) as [[owned|e] s3]; [|reflexivity].
      destruct owned; [apply IH|].
      destruct (_ >=? _); [reflexivity | apply IH].
  - intros p limit cands. apply spy_loop_ids; constructor.
Qed.

Lemma candidates_without_id_are_dropped_witness :
  let one := VDict [("id", VInt 1)] in
  let anon := VDict [("title", VStr "untitled"); ("id", VNone)] in
  let three := VDict [("id", VInt 3)] in
  py_get anon "id" VNone = Ok VNone
  /\ recommender.recommend_loop (spy never_owned) 10 [one; anon; three] [] []
     = (Ok [one; three], [(VInt 1, VStr "movie"); (VInt 3, VStr "movie")]).
Proof.
  intros one anon three. split; [reflexivity|].
  refine (eq_trans (proj1 candidates_without_id_are_dropped _ (spy never_owned) 10
                      [one] anon [three] [] [] eq_refl) _).
  reflexivity.
Defined.

End recommendation_claims.

(** ** The routes *)

Section routes.
Context `{PyBuiltins}.

(** C6: [home] always renders its template, and each of its five rows
    shows what the client call behind it returned, or the empty list
    when that call raised; no error of a client call leaves the route. *)
Theorem home_degrades_to_empty_rows (w : World) :
  let r1 := jellyfin.get_continue_watching 24 w in
  let r2 := jellyfin.get_recently_added 24 (snd r1) in
  let r3 := recommender.recommend_download 12 (snd r2) in
  let r4 := tmdb.get_trending 12 (snd r3) in
  let r5 := tmdb.get_streaming_highlights 12 (snd r4) in
  fst (main.home w)
  = Ok (main.TemplateResponse "home.html"
          [("rows", VList [
              main.row "Continue Watching" (or_empty (fst r1)) "jellyfin";
              main.row "Recently Added" (or_empty (fst r2)) "jellyfin";
              main.row "Recommended to Download" (or_empty (fst r3)) "tmdb";
              main.row "Trending Now" (or_empty (fst r4)) "tmdb";
              main.row "Streaming Highlights" (or_empty (fst r5)) "tmdb" ]);
           ("jellyfin_url", VStr (chosen_base (snd r5)))]).
Proof.
  cbv zeta. unfold main.home, bind, try_except, ret.
  destruct (jellyfin.get_continue_watching 24 w) as [[v1|e1] w1]; cbn [fst snd or_empty];
  destruct (jellyfin.get_recently_added 24 w1) as [[v2|e2] w2]; cbn [fst snd or_empty];
  destruct (recommender.recommend_download 12 w2) as [[v3|e3] w3]; cbn [fst snd or_empty];
  destruct (tmdb.get_trending 12 w3) as [[v4|e4] w4]; cbn [fst snd or_empty];
  destruct (tmdb.get_streaming_highlights 12 w4) as [[v5|e5] w5]; cbn [fst snd or_empty];
  rewrite base_run; reflexivity.
Qed.

(** When the first lookup of [title_detail] raises, the route raises
    the 404 [HTTPException]. *)
Lemma title_detail_jellyfin_not_found item_id media_type w e :
  fst (jellyfin.get_item item_id w) = Raise e ->
  fst (main.title_detail "jellyfin" item_id media_type w)
  = Raise (HTTPException 404 "Item not found").
Proof.
  intros Hraise. unfold main.title_detail. cbn [String.eqb Ascii.eqb Bool.eqb].
  unfold bind at 1, try_except, raise.
  destruct (jellyfin.get_item item_id w) as [r w']. simpl in Hraise. subst r. reflexivity.
Qed.

Lemma title_detail_tmdb_not_found kind item_id media_type tmdb_id w e :
  String.eqb kind "jellyfin" = false ->
  py_int item_id = Some tmdb_id ->
  fst (tmdb.get_details (default "movie" media_type) tmdb_id w) = Raise e ->
  fst (main.title_detail kind item_id media_type w)
  = Raise (HTTPException 404 "Item not found").
Proof.
  intros Hkind Hint Hraise. unfold main.title_detail. rewrite Hkind, Hint.
  unfold bind at 1, lift_exc. unfold bind at 1, try_except, raise.
  replace (match media_type with Some m => m | None => "movie" end)
    with (default "movie" media_type) by (destruct media_type; reflexivity).
  destruct (tmdb.get_details _ tmdb_id w) as [r w']. simpl in Hraise. subst r. reflexivity.
Qed.

(** With a credential configured, the video search is sent with the
    display string itself as its query. *)
Lemma youtube_lookup_request title media_type tmdb_id year k w :
  environ w "YOUTUBE_DATA_API_KEY" = Some k ->
  truthy (VStr k) = true ->
  trace (snd (provider.resolve_provider_link (VStr title) media_type tmdb_id year
                "youtube" w))
  = trace w ++ [video_search_request (VStr (normalized_text title year)) k].
Proof.
  intros Hkey Hk. unfold provider.resolve_provider_link. rewrite normalized_of_str.
  cbn [String.eqb Ascii.eqb Bool.eqb]. unfold bind at 1, gets. rewrite Hkey, Hk.
  unfold bind.
  pose proof (find_video_world (VStr (normalized_text title year)) k w) as Hw.
  destruct (provider._find_youtube_video_id _ k w) as [[v|e] w']; simpl in Hw; subst w'.
  - destruct (truthy v); reflexivity.
  - reflexivity.
Qed.

End routes.

(** C5: three requests for a title page on which an upstream failure
    leaves [title_detail] as the upstream exception itself, not as the
    404 [HTTPException]: Jellyfin unreachable at the library check,
    the session list timing out, and TMDB sending a list for an object. *)
Theorem title_detail_lets_upstream_errors_through :
  fst (@main.title_detail ascii_builtins "tmdb" "27205" None jellyfin_down)
    = Raise (RequestException ConnectionFailed)
  /\ fst (@main.title_detail ascii_builtins "jellyfin" "f3a9" None sessions_down)
    = Raise (RequestException TimedOut)
  /\ fst (@main.title_detail ascii_builtins "tmdb" "27205" None tmdb_malformed)
    = Raise AttributeError.
Proof. repeat split; vm_compute; reflexivity. Qed.

(** C4: with a search credential configured, the query that reaches the
    video-search endpoint for "Inception" (2010) is ["Inception (2010)"],
    restricted to videos, and the first result comes back as a watch URL;
    the words [" full movie"] are not part of the query. *)
Theorem youtube_search_query_is_display_string :
  let outcome := @provider.resolve_provider_link ascii_builtins
               (VStr "Inception") (VStr "movie") 27205 (Some 2010) "youtube" youtube_ready in
  fst outcome = Ok "https://www.youtube.com/watch?v=YoHD9XEInc0"
  /\ List.map (fun r => (url r, assoc "q" (params r), assoc "type" (params r)))
              (trace (snd outcome))
     = [("https://www.googleapis.com/youtube/v3/search",
         Some (VStr "Inception (2010)"), Some (VStr "video"))]
  /\ VStr "Inception (2010)" <> VStr ("Inception (2010)" +:+ " full movie").
Proof. repeat split; [vm_compute; reflexivity .. | discriminate]. Qed.

(** ** More on the ratings table *)

Section ratings_table_frame.
Import db.

Lemma rows_for_nil_absent s k t :
  rows_for s k t = [] -> (s, k) ∉ List.map key_of t.
Proof.
  unfold rows_for. induction t as [|r t IH]; simpl; intros Hnil.
  - apply not_elem_of_nil.
  - destruct (same_key s k r) eqn:E; [discriminate Hnil|].
    apply not_elem_of_cons. split; [|auto].
    intros Heq. apply same_key_true in Heq. congruence.
Qed.

Lemma same_key_other s k s' k' r :
  (s, k) <> (s', k') -> same_key s k r = true -> same_key s' k' r = false.
Proof.
  intros Hne Hr. apply same_key_true in Hr.
  destruct (same_key s' k' r) eqn:E; [|reflexivity].
  apply same_key_true in E. congruence.
Qed.

Lemma rows_for_other_key new s' k' t :
  (source new, key new) <> (s', k') ->
  rows_for s' k' (insert_or_update new t) = rows_for s' k' t.
Proof.
  intros Hne. unfold rows_for. induction t as [|r t IH]; simpl.
  - destruct (same_key s' k' new) eqn:E; [|reflexivity].
    apply same_key_true in E. unfold key_of in E. congruence.
  - destruct (same_key (source new) (key new) r) eqn:E; simpl.
    + assert (Hr : same_key s' k' r = false) by (eapply same_key_other; eauto).
      rewrite Hr. unfold same_key in *. simpl. rewrite Hr. reflexivity.
    + rewrite IH. reflexivity.
Qed.

Lemma in_range_insert_or_update new t :
  in_range new -> Forall in_range t -> Forall in_range (insert_or_update new t).
Proof.
  intros Hnew. induction t as [|r t IH]; simpl; intros Ht.
  - constructor; [exact Hnew | constructor].
  - apply Forall_cons in Ht as [Hr Ht].
    destruct (same_key (source new) (key new) r).
    + constructor; [exact Hnew | exact Ht].
    + constructor; [exact Hr | auto].
Qed.

Lemma clamp_in_range x : 1 <= Z.max 1 (Z.min 5 x) <= 5.
Proof. lia. Qed.

Lemma get_rating_elem s k v t :
  get_rating s k t = Some v -> exists r, r ∈ t /\ stars r = v.
Proof.
  unfold get_rating. induction t as [|r t IH]; simpl; [discriminate|].
  destruct (same_key s k r).
  - intros [= <-]. exists r. split; [apply list_elem_of_here | reflexivity].
  - intros Hv. destruct (IH Hv) as (r' & Hin & Hst).
    exists r'. split; [apply list_elem_of_further, Hin | exact Hst].
Qed.

(** X1: [get_rating] answers [None] exactly for the keys that have no
    row, so a key that was never rated has no rating. *)
Theorem get_rating_none_iff_unrated (s k : string) (t : Table) :
  get_rating s k t = None <-> (s, k) ∉ List.map key_of t.
Proof.
  unfold get_rating. split.
  - intros Hnone. apply rows_for_nil_absent. unfold rows_for.
    destruct (List.filter (same_key s k) t); [reflexivity | discriminate Hnone].
  - intros Habsent. apply rows_for_absent in Habsent. unfold rows_for in Habsent.
    rewrite Habsent. reflexivity.
Qed.

(** X2: [upsert_rating] on one key leaves the rows of every other key,
    timestamps included, and hence their ratings, as they were. *)
Theorem upsert_leaves_other_keys (now : Z) (s k : string) (x : Z) (s' k' : string) (t : Table) :
  (s, k) <> (s', k') ->
  rows_for s' k' (upsert_rating now s k x t) = rows_for s' k' t
  /\ get_rating s' k' (upsert_rating now s k x t) = get_rating s' k' t.
Proof.
  intros Hne.
  assert (Hrows : rows_for s' k' (upsert_rating now s k x t) = rows_for s' k' t).
  { unfold upsert_rating. apply rows_for_other_key. exact Hne. }
  split; [exact Hrows|].
  unfold get_rating. fold (rows_for s' k' (upsert_rating now s k x t)).
  fold (rows_for s' k' t). rewrite Hrows. reflexivity.
Qed.

Lemma upsert_leaves_other_keys_witness :
  ("tmdb", "movie:1") <> ("tmdb", "movie:2")
  /\ get_rating "tmdb" "movie:2"
       (upsert_rating 7 "tmdb" "movie:1" 5 [mkRow "tmdb" "movie:2" 2 0]) = Some 2.
Proof.
  assert (Hne : ("tmdb", "movie:1") <> ("tmdb", "movie:2")) by discriminate.
  split; [exact Hne|].
  rewrite (proj2 (upsert_leaves_other_keys 7 "tmdb" "movie:1" 5 "tmdb" "movie:2"
                    [mkRow "tmdb" "movie:2" 2 0] Hne)).
  reflexivity.
Defined.

Lemma replay_invariant calls :
  forall t, pk_unique t -> Forall in_range t ->
    pk_unique (fold_left (fun t c => upsert_rating (fst (fst c)) (fst (snd (fst c)))
                                       (snd (snd (fst c))) (snd c) t) calls t)
    /\ Forall in_range (fold_left (fun t c => upsert_rating (fst (fst c)) (fst (snd (fst c)))
                                       (snd (snd (fst c))) (snd c) t) calls t).
Proof.
  induction calls as [|c calls IH]; intros t Hpk Hrange; simpl; [auto|].
  apply IH.
  - apply pk_unique_upsert, Hpk.
  - unfold upsert_rating. apply in_range_insert_or_update; [|exact Hrange].
    unfold in_range. simpl. apply clamp_in_range.
Qed.

(** X3: whatever calls of [upsert_rating] are made on the empty table,
    with whatever stars, the table keeps one row per key and every stored
    rating, and so every answer of [get_rating], lies between 1 and 5. *)
Theorem ratings_stay_on_the_scale (calls : list (Z * (string * string) * Z)) :
  pk_unique (replay calls)
  /\ Forall in_range (replay calls)
  /\ (forall s k, match get_rating s k (replay calls) with
                  | Some v => 1 <= v <= 5
                  | None => True
                  end).
Proof.
  destruct (replay_invariant calls [] pk_unique_empty (Forall_nil_2 _)) as [Hpk Hrange].
  fold (replay calls) in Hpk, Hrange.
  split; [exact Hpk|]. split; [exact Hrange|].
  intros s k. destruct (get_rating s k (replay calls)) as [v|] eqn:E; [|exact I].
  destruct (get_rating_elem _ _ _ _ E) as (r & Hin & <-).
  rewrite Forall_forall in Hrange. exact (Hrange r Hin).
Qed.

(** X4: [upsert_rating] never removes a row: it adds exactly one when the
    key had no rating and keeps the number of rows otherwise. *)
Theorem upsert_row_count (now : Z) (s k : string) (x : Z) (t : Table) :
  length (upsert_rating now s k x t)
  = match get_rating s k t with
    | Some _ => length t
    | None => S (length t)
    end.
Proof.
  unfold upsert_rating, get_rating. simpl.
  induction t as [|r t IH]; simpl; [reflexivity|].
  destruct (same_key s k r); simpl; [reflexivity|].
  rewrite IH. destruct (List.filter (same_key s k) t); reflexivity.
Qed.

End ratings_table_frame.

(** ** URL quoting and trailing slashes *)

Section quoting.

Lemma chars_app (a b : string) :
  list_ascii_of_string (a +:+ b) = list_ascii_of_string a ++ list_ascii_of_string b.
Proof. induction a as [|c a IH]; simpl; [reflexivity | rewrite IH; reflexivity]. Qed.

Lemma quote_byte_safe (c : ascii) :
  forallb url_safe (list_ascii_of_string (quote_byte c)) = true.
Proof. destruct c as [[] [] [] [] [] [] [] []]; vm_compute; reflexivity. Qed.

Lemma unquote_quote_byte (c : ascii) (rest : string) :
  unquote_plus (quote_byte c +:+ rest) = String c (unquote_plus rest).
Proof. destruct c as [[] [] [] [] [] [] [] []]; reflexivity. Qed.

(** X5: a quoted query is made of letters, digits, [_ . - ~], [+] and
    [%] only: whatever the text, no space, [&], [#], [?], [/] or [=] of
    its own reaches the URL. *)
Theorem quote_plus_alphabet (s : string) :
  forallb url_safe (list_ascii_of_string (quote_plus s)) = true.
Proof.
  induction s as [|c s IH]; simpl; [reflexivity|].
  rewrite chars_app, forallb_app, quote_byte_safe, IH. reflexivity.
Qed.

(** X6: quoting loses nothing: the text is read back from its quoted
    form, so two different texts never share a quoted form. *)
Theorem quote_plus_round_trip :
  (forall s, unquote_plus (quote_plus s) = s)
  /\ (forall a b, quote_plus a = quote_plus b -> a = b).
Proof.
  assert (Hback : forall s, unquote_plus (quote_plus s) = s).
  { induction s as [|c s IH]; simpl; [reflexivity|].
    rewrite unquote_quote_byte, IH. reflexivity. }
  split; [exact Hback|].
  intros a b Heq. rewrite <- (Hback a), <- (Hback b), Heq. reflexivity.
Qed.

Lemma rstrip_slash_split (s : string) :
  exists n, s = rstrip_slash s +:+ slashes n
            /\ (rstrip_slash s = EmptyString -> s = slashes n).
Proof.
  induction s as [|c s IH]; simpl.
  - exists O. auto.
  - destruct IH as (n & Hs & Hempty).
    destruct (rstrip_slash s) as [|c' r'] eqn:E.
    + specialize (Hempty eq_refl).
      destruct (Ascii.eqb c "/") eqn:Ec.
      * apply Ascii.eqb_eq in Ec. subst c. exists (S n). simpl. rewrite <- Hempty. auto.
      * exists n. simpl. rewrite <- Hempty. split; [reflexivity | discriminate].
    + exists n. split; [|discriminate].
      change (String c s = String c (String c' r' +:+ slashes n)). congruence.
Qed.

Lemma rstrip_slash_no_slash (s : string) : ends_with_slash (rstrip_slash s) = false.
Proof.
  induction s as [|c s IH]; simpl; [reflexivity|].
  destruct (rstrip_slash s) as [|c' r'] eqn:E.
  - destruct (Ascii.eqb c "/") eqn:Ec; simpl; [reflexivity | exact Ec].
  - simpl. simpl in IH. exact IH.
Qed.

Lemma rstrip_slash_fixed (s : string) :
  ends_with_slash s = false -> rstrip_slash s = s.
Proof.
  induction s as [|c s IH]; simpl; [reflexivity|].
  destruct s as [|c' s'].
  - simpl. intros ->. reflexivity.
  - intros Hs. rewrite (IH Hs). reflexivity.
Qed.

(** X7: [rstrip("/")] removes trailing slashes and nothing else, leaves
    no trailing slash, and the clients built by [__init__] or [from_env]
    therefore hold base URLs without one, whatever the configuration. *)
Theorem client_urls_have_no_trailing_slash :
  (forall s, ends_with_slash (rstrip_slash s) = false
             /\ (exists n, s = rstrip_slash s +:+ slashes n)
             /\ rstrip_slash (rstrip_slash s) = rstrip_slash s)
  /\ (forall env, ends_with_slash (lan_url (jellyfin.from_env env)) = false
                  /\ ends_with_slash (wan_url (jellyfin.from_env env)) = false
                  /\ ends_with_slash (jellyseerr.base (jellyseerr.from_env env)) = false).
Proof.
  split.
  - intros s. split; [apply rstrip_slash_no_slash|]. split.
    + destruct (rstrip_slash_split s) as (n & Hs & _). exists n. exact Hs.
    + apply rstrip_slash_fixed, rstrip_slash_no_slash.
  - intros env. repeat split; apply rstrip_slash_no_slash.
Qed.

End quoting.

(** ** More on provider links *)

Section provider_links_network.
Context `{PyBuiltins}.

Lemma search_link_world prefix q (w : World) :
  snd (provider.search_link prefix q w) = w.
Proof.
  unfold provider.search_link, bind, lift_exc, ret.
  destruct (quote_plus_value q); reflexivity.
Qed.

Lemma resp_ok_raise resp :
  resp_ok resp = false -> exists e, raise_for_status resp = Raise e.
Proof. unfold resp_ok. destruct (raise_for_status resp); [discriminate | eauto]. Qed.

Lemma resp_ok_pass resp : resp_ok resp = true -> raise_for_status resp = Ok tt.
Proof. unfold resp_ok. destruct (raise_for_status resp) as [[]|]; [reflexivity | discriminate]. Qed.

Lemma find_video_none query k w :
  lookup_fails (upstream w (trace w) (video_search_request query k)) ->
  fst (provider._find_youtube_video_id query k w) = Ok VNone.
Proof.
  unfold provider._find_youtube_video_id, try_except, bind, http, lookup_fails.
  fold (video_search_request query k).
  destruct (upstream w (trace w) _) as [why|resp]; [reflexivity|].
  unfold lift_exc, ret. intros [Hbad|[Hbody|(d & Hbody & Hitems)]].
  - destruct (resp_ok_raise _ Hbad) as [e ->]. reflexivity.
  - destruct (raise_for_status resp); [|reflexivity].
    unfold resp_json. rewrite Hbody. reflexivity.
  - destruct (raise_for_status resp); [|reflexivity].
    unfold resp_json. rewrite Hbody. cbn [py_get]. rewrite Hitems. reflexivity.
Qed.

Lemma find_video_some v query k w :
  lookup_finds v (upstream w (trace w) (video_search_request query k)) ->
  fst (provider._find_youtube_video_id query k w) = Ok (VStr v).
Proof.
  unfold provider._find_youtube_video_id, try_except, bind, http, lookup_finds.
  fold (video_search_request query k).
  destruct (upstream w (trace w) _) as [why|resp]; [intros []|].
  intros (Hok & d & first & more & idd & Hbody & Hitems & Hid & Hvid).
  unfold lift_exc, ret. rewrite (resp_ok_pass _ Hok).
  unfold resp_json. rewrite Hbody. cbn [py_get]. rewrite Hitems.
  cbn [truthy negb py_getitem_0 py_getitem_str]. rewrite Hid.
  cbn [py_getitem_str]. rewrite Hvid. reflexivity.
Qed.

(** X8: unless the provider is youtube and a non-empty search credential
    is configured, [resolve_provider_link] sends nothing and changes
    nothing; for youtube without a credential the link is the search for
    the display string followed by [" full movie"]. *)
Theorem resolve_without_credential_is_offline
    (title media_type : Value) (tmdb_id : Z) (year : option Z) (name : string) (w : World) :
  name <> "youtube"
  \/ environ w "YOUTUBE_DATA_API_KEY" = None
  \/ environ w "YOUTUBE_DATA_API_KEY" = Some "" ->
  snd (provider.resolve_provider_link title media_type tmdb_id year name w) = w
  /\ (forall t, title = VStr t -> name = "youtube" ->
        fst (provider.resolve_provider_link title media_type tmdb_id year name w)
        = Ok (fallback_url t year)).
Proof.
  intros Hoff. unfold provider.resolve_provider_link.
  destruct (String.eqb name "netflix") eqn:E1.
  { split; [apply search_link_world|]. intros t _ ->. discriminate E1. }
  destruct (String.eqb name "max") eqn:E2.
  { split; [apply search_link_world|]. intros t _ ->. discriminate E2. }
  destruct (String.eqb name "discovery") eqn:E3.
  { split; [apply search_link_world|]. intros t _ ->. discriminate E3. }
  destruct (String.eqb name "youtube") eqn:E4.
  { apply String.eqb_eq in E4. subst name. unfold bind, gets. cbv beta iota.
    destruct Hoff as [Hne|[Hnone|Hempty]]; [congruence| |].
    - rewrite Hnone. split; [apply search_link_world|].
      intros t -> _. rewrite normalized_of_str. reflexivity.
    - rewrite Hempty. cbn [truthy String.eqb negb].
      split; [apply search_link_world|].
      intros t -> _. rewrite normalized_of_str. reflexivity. }
  destruct (String.eqb name "youtube_tv") eqn:E5.
  { split; [apply search_link_world|]. intros t _ ->. discriminate E4. }
  split; [apply search_link_world|]. intros t _ ->. discriminate E4.
Qed.

(** X9: with a credential configured, a video search that fails in any
    of the ways of [lookup_fails] makes youtube resolution fall back to
    the search link; nothing is raised. *)
Theorem youtube_falls_back_when_lookup_fails
    (title : string) (media_type : Value) (tmdb_id : Z) (year : option Z)
    (k : string) (w : World) :
  environ w "YOUTUBE_DATA_API_KEY" = Some k ->
  truthy (VStr k) = true ->
  lookup_fails (upstream w (trace w)
                  (video_search_request (VStr (normalized_text title year)) k)) ->
  fst (provider.resolve_provider_link (VStr title) media_type tmdb_id year "youtube" w)
  = Ok (fallback_url title year).
Proof.
  intros Hkey Hk Hfail. unfold provider.resolve_provider_link. rewrite normalized_of_str.
  cbn [String.eqb Ascii.eqb Bool.eqb]. unfold bind at 1, gets. rewrite Hkey, Hk.
  unfold bind. pose proof (find_video_none _ _ _ Hfail) as Hnone.
  destruct (provider._find_youtube_video_id _ k w) as [r w']. simpl in Hnone. subst r.
  reflexivity.
Qed.

(** X10: with a credential configured, when the first item of the answer
    carries a non-empty video id, youtube resolution returns the watch
    link of that video. *)
Theorem youtube_links_to_first_result
    (title : string) (media_type : Value) (tmdb_id : Z) (year : option Z)
    (k v : string) (w : World) :
  environ w "YOUTUBE_DATA_API_KEY" = Some k ->
  truthy (VStr k) = true ->
  v <> "" ->
  lookup_finds v (upstream w (trace w)
                    (video_search_request (VStr (normalized_text title year)) k)) ->
  fst (provider.resolve_provider_link (VStr title) media_type tmdb_id year "youtube" w)
  = Ok ("https://www.youtube.com/watch?v=" +:+ v).
Proof.
  intros Hkey Hk Hv Hfound. unfold provider.resolve_provider_link. rewrite normalized_of_str.
  cbn [String.eqb Ascii.eqb Bool.eqb]. unfold bind at 1, gets. rewrite Hkey, Hk.
  unfold bind. pose proof (find_video_some _ _ _ _ Hfound) as Hsome.
  destruct (provider._find_youtube_video_id _ k w) as [r w']. simpl in Hsome. subst r.
  assert (Htruthy : truthy (VStr v) = true).
  { simpl. destruct (String.eqb v "") eqn:E; [|reflexivity].
    apply String.eqb_eq in E. contradiction. }
  rewrite Htruthy. reflexivity.
Qed.

End provider_links_network.

Lemma resolve_without_credential_is_offline_witness :
  (environ jellyfin_down "YOUTUBE_DATA_API_KEY" = None)
  /\ @provider.resolve_provider_link ascii_builtins (VStr "Dune") (VStr "movie") 438631
       (Some 2021) "youtube" jellyfin_down
     = (Ok "https://www.youtube.com/results?search_query=Dune+%282021%29+full+movie",
        jellyfin_down).
Proof.
  split; [reflexivity|].
  destruct (@resolve_without_credential_is_offline ascii_builtins (VStr "Dune") (VStr "movie")
              438631 (Some 2021) "youtube" jellyfin_down (or_intror (or_introl eq_refl)))
    as [Hworld Hlink].
  specialize (Hlink "Dune" eq_refl eq_refl).
  destruct (@provider.resolve_provider_link ascii_builtins (VStr "Dune") (VStr "movie") 438631
              (Some 2021) "youtube" jellyfin_down) as [r w'].
  simpl in Hworld, Hlink. rewrite Hworld, Hlink. reflexivity.
Defined.

Lemma youtube_falls_back_when_lookup_fails_witness :
  lookup_fails (upstream youtube_unreachable (trace youtube_unreachable)
                  (video_search_request (VStr "Dune (2021)") "yt-key"))
  /\ fst (@provider.resolve_provider_link ascii_builtins (VStr "Dune") (VStr "movie") 438631
            (Some 2021) "youtube" youtube_unreachable)
     = Ok "https://www.youtube.com/results?search_query=Dune+%282021%29+full+movie".
Proof.
  split; [exact I|].
  exact (@youtube_falls_back_when_lookup_fails ascii_builtins "Dune" (VStr "movie") 438631
           (Some 2021) "yt-key" youtube_unreachable eq_refl eq_refl I).
Defined.

Lemma youtube_links_to_first_result_witness :
  lookup_finds "YoHD9XEInc0"
    (upstream youtube_ready (trace youtube_ready)
       (video_search_request (VStr "Dune (2021)") "yt-key"))
  /\ fst (@provider.resolve_provider_link ascii_builtins (VStr "Dune") (VStr "movie") 438631
            (Some 2021) "youtube" youtube_ready)
     = Ok "https://www.youtube.com/watch?v=YoHD9XEInc0".
Proof.
  assert (Hfound : lookup_finds "YoHD9XEInc0"
            (upstream youtube_ready (trace youtube_ready)
               (video_search_request (VStr "Dune (2021)") "yt-key"))).
  { split; [reflexivity|]. do 4 eexists. repeat split; reflexivity. }
  split; [exact Hfound|].
  refine (@youtube_links_to_first_result ascii_builtins "Dune" (VStr "movie") 438631
            (Some 2021) "yt-key" "YoHD9XEInc0" youtube_ready eq_refl eq_refl _ Hfound).
  discriminate.
Defined.

(** ** Bounds on trending lists and recommendations *)

Section bounds.
Context `{PyBuiltins}.

Lemma slice_length {A} (limit : Z) (l : list A) :
  0 <= limit -> Z.of_nat (length (py_slice_to limit l)) <= limit.
Proof.
  intros Hpos. unfold py_slice_to.
  destruct (0 <=? limit) eqn:E; [|apply Z.leb_gt in E; lia].
  rewrite length_firstn. lia.
Qed.

Lemma trending_length limit w l :
  0 <= limit ->
  fst (tmdb.get_trending limit w) = Ok (VList l) ->
  Z.of_nat (length l) <= limit.
Proof.
  intros Hpos. unfold tmdb.get_trending, bind, lift_exc.
  destruct (tmdb._get "/trending/all/week" [] w) as [[data|e] w1]; [|discriminate].
  destruct (py_get data "results" (VList [])) as [results|e]; [|discriminate].
  destruct results; simpl; try discriminate.
  - intros [= <-]. apply slice_length, Hpos.
Qed.

(** X11: [get_trending] with a limit that is not negative never returns
    more than [limit] titles, however many upstream sends. *)
Theorem trending_respects_limit (limit : Z) (w : World) (l : list Value) :
  0 <= limit ->
  fst (tmdb.get_trending limit w) = Ok (VList l) ->
  Z.of_nat (length l) <= limit.
Proof. apply trending_length. Qed.

Lemma loop_length {S} (chk : Value -> Value -> M S bool) limit cands :
  forall acc s out,
    fst (recommender.recommend_loop chk limit cands acc s) = Ok out ->
    Z.of_nat (length out) <= Z.max (Z.of_nat (length acc) + 1) limit.
Proof.
  induction cands as [|item rest IH]; intros acc s out.
  - simpl. intros [= <-]. lia.
  - cbn [recommender.recommend_loop]. unfold bind, lift_exc.
    destruct (recommender.media_type_of item) as [mt|e]; [|discriminate].
    destruct (py_get item "id" VNone) as [id|e]; [|discriminate].
    destruct (is_none id); [apply IH|].
    destruct (chk id mt s) as [[owned|e] s1]; [|discriminate].
    destruct owned; [apply IH|].
    destruct (Z.of_nat (length (acc ++ [item])) >=? limit) eqn:E.
    + simpl. intros [= <-]. rewrite length_app. simpl. lia.
    + intros Hout. apply IH in Hout. rewrite Z.geb_leb in E. apply Z.leb_gt in E.
      rewrite length_app in *. simpl in *. lia.
Qed.

(** X12: [recommend_download] returns a list of at most [limit] titles,
    or of at most one when [limit] is below 1. *)
Theorem recommend_download_length (limit : Z) (w : World) (v : Value) :
  fst (recommender.recommend_download limit w) = Ok v ->
  exists out, v = VList out /\ Z.of_nat (length out) <= Z.max 1 limit.
Proof.
  unfold recommender.recommend_download, bind, lift_exc, ret.
  destruct (tmdb.get_trending 100 w) as [[cands|e] w1]; [|discriminate].
  destruct (py_iter cands) as [items|e]; [|discriminate].
  destruct (recommender.recommend_loop jellyfin.is_in_library limit items [] w1)
    as [[out|e] w2] eqn:E; [|discriminate].
  simpl. intros [= <-]. exists out. split; [reflexivity|].
  apply (loop_length jellyfin.is_in_library limit items [] w1 out). rewrite E. reflexivity.
Qed.

Lemma is_in_library_world tmdb_id media_type w :
  snd (jellyfin.is_in_library tmdb_id media_type w)
  = sent (get_request w "/Items" [("AnyProviderIdEquals", VStr ("tmdb." +:+ py_str tmdb_id))])
         (sent (jellyfin.head_probe (jellyfin_obj w)) w).
Proof.
  unfold jellyfin.is_in_library, bind.
  pose proof (get_world "/Items"
    [("AnyProviderIdEquals", VStr ("tmdb." +:+ py_str tmdb_id))] w) as Hw.
  destruct (jellyfin._get _ _ w) as [[data|e] w1]; simpl in Hw; subst w1; [|reflexivity].
  unfold lift_exc, ret. destruct (py_get data "TotalRecordCount" VNone); reflexivity.
Qed.




End bounds.

Lemma trending_respects_limit_witness :
  0 <= 2
  /\ fst (tmdb.get_trending 2 catalogue)
     = Ok (VList [VDict [("id", VInt 1); ("title", VStr "Dune")];
                  VDict [("id", VInt 2); ("name", VStr "Severance")]])
  /\ (2 <= 2)%Z.
Proof.
  assert (Hpos : 0 <= 2) by lia.
  assert (Hrun : fst (tmdb.get_trending 2 catalogue)
                 = Ok (VList [VDict [("id", VInt 1); ("title", VStr "Dune")];
                              VDict [("id", VInt 2); ("name", VStr "Severance")]]))
    by reflexivity.
  split; [exact Hpos|]. split; [exact Hrun|].
  exact (trending_respects_limit 2 catalogue _ Hpos Hrun).
Defined.

Lemma recommend_download_length_witness :
  fst (@recommender.recommend_download ascii_builtins 1 catalogue)
  = Ok (VList [VDict [("id", VInt 1); ("title", VStr "Dune")]])
  /\ exists out, VList [VDict [("id", VInt 1); ("title", VStr "Dune")]] = VList out
                 /\ Z.of_nat (length out) <= Z.max 1 1.
Proof.
  assert (Hrun : fst (@recommender.recommend_download ascii_builtins 1 catalogue)
                 = Ok (VList [VDict [("id", VInt 1); ("title", VStr "Dune")]]))
    by (vm_compute; reflexivity).
  split; [exact Hrun|].
  exact (@recommend_download_length ascii_builtins 1 catalogue _ Hrun).
Defined.

(** ** What the pages leave alone *)

Lemma only_sends_ret {A} (a : A) : only_sends (ret a).
Proof. intros w. exists []. reflexivity. Qed.

Lemma only_sends_raise {A} (e : exn) : only_sends (@raise World A e).
Proof. intros w. exists []. reflexivity. Qed.

Lemma only_sends_lift {A} (r : Exc A) : only_sends (lift_exc r).
Proof. intros w. exists []. reflexivity. Qed.

Lemma only_sends_gets {A} (f : World -> A) : only_sends (gets f).
Proof. intros w. exists []. reflexivity. Qed.

Lemma only_sends_http r : only_sends (http r).
Proof. intros w. exists [r]. unfold http. destruct (upstream w (trace w) r); reflexivity. Qed.

Lemma only_sends_bind {A B} (m : M World A) (k : A -> M World B) :
  only_sends m -> (forall a, only_sends (k a)) -> only_sends (bind m k).
Proof.
  intros Hm Hk w. destruct (Hm w) as [rs1 H1]. unfold bind.
  destruct (m w) as [[a|e] w1]; simpl in H1.
  - destruct (Hk a w1) as [rs2 H2]. exists (rs1 ++ rs2).
    rewrite fold_left_app, <- H1. exact H2.
  - exists rs1. exact H1.
Qed.

Lemma only_sends_try {A} (m h : M World A) :
  only_sends m -> only_sends h -> only_sends (try_except m h).
Proof.
  intros Hm Hh w. destruct (Hm w) as [rs1 H1]. unfold try_except.
  destruct (m w) as [[a|e] w1]; simpl in H1.
  - exists rs1. exact H1.
  - destruct (Hh w1) as [rs2 H2]. exists (rs1 ++ rs2).
    rewrite fold_left_app, <- H1. exact H2.
Qed.

Lemma only_sends_mapM {A B} (f : A -> M World B) (l : list A) :
  (forall a, only_sends (f a)) -> only_sends (mapM f l).
Proof.
  intros Hf. induction l as [|x l IH]; simpl; [apply only_sends_ret|].
  apply only_sends_bind; [apply Hf|]. intros y.
  apply only_sends_bind; [exact IH|]. intros ys. apply only_sends_ret.
Qed.

Ltac sends_step :=
  match goal with
  | |- only_sends (bind _ _) => apply only_sends_bind; [|intros]
  | |- only_sends (try_except _ _) => apply only_sends_try
  | |- only_sends (mapM _ _) => apply only_sends_mapM; intros
  | |- only_sends (ret _) => apply only_sends_ret
  | |- only_sends (raise _) => apply only_sends_raise
  | |- only_sends (lift_exc _) => apply only_sends_lift
  | |- only_sends (gets _) => apply only_sends_gets
  | |- only_sends (http _) => apply only_sends_http
  | |- only_sends (if ?b then _ else _) => destruct b
  | |- only_sends (match ?x with _ => _ end) => destruct x
  | |- only_sends _ => assumption
  end.

Ltac sends := cbv zeta; repeat sends_step.

Section read_only.
Context `{PyBuiltins}.

Lemma sends_base : only_sends jellyfin._base.
Proof. unfold jellyfin._base. sends. Qed.

Lemma sends_jellyfin_get path params : only_sends (jellyfin._get path params).
Proof. unfold jellyfin._get. pose proof sends_base. sends. Qed.

Lemma sends_is_in_library id mt : only_sends (jellyfin.is_in_library id mt).
Proof. unfold jellyfin.is_in_library. pose proof sends_jellyfin_get. sends. auto. Qed.

Lemma sends_tmdb_get path params : only_sends (tmdb._get path params).
Proof. unfold tmdb._get. sends. Qed.

Lemma sends_trending limit : only_sends (tmdb.get_trending limit).
Proof. unfold tmdb.get_trending. pose proof sends_tmdb_get. sends. auto. Qed.

Lemma sends_loop limit cands :
  forall acc, only_sends (recommender.recommend_loop jellyfin.is_in_library limit cands acc).
Proof.
  induction cands as [|item rest IH]; intros acc; cbn [recommender.recommend_loop].
  - apply only_sends_ret.
  - pose proof sends_is_in_library. sends; auto.
Qed.

Lemma sends_recommend limit : only_sends (recommender.recommend_download limit).
Proof.
  unfold recommender.recommend_download.
  pose proof sends_trending. pose proof sends_loop. sends; auto.
Qed.

Lemma sends_find_video q k : only_sends (provider._find_youtube_video_id q k).
Proof. unfold provider._find_youtube_video_id. sends. Qed.

Lemma sends_search_link prefix q : only_sends (provider.search_link prefix q).
Proof. unfold provider.search_link. sends. Qed.

Lemma sends_resolve title mt id year name :
  only_sends (provider.resolve_provider_link title mt id year name).
Proof.
  unfold provider.resolve_provider_link.
  pose proof sends_find_video. pose proof sends_search_link. sends; auto.
Qed.

Lemma sends_devices : only_sends provider.list_playback_devices.
Proof.
  unfold provider.list_playback_devices, jellyfin.list_sessions.
  pose proof sends_jellyfin_get. sends; auto.
Qed.

Lemma sends_stream_url item_id : only_sends (jellyfin.stream_url item_id).
Proof. unfold jellyfin.stream_url. pose proof sends_base. sends. Qed.

Lemma sends_home : only_sends main.home.
Proof.
  unfold main.home, jellyfin.get_continue_watching, jellyfin.get_recently_added,
    tmdb.get_streaming_highlights.
  pose proof sends_base. pose proof sends_jellyfin_get. pose proof sends_recommend.
  pose proof sends_trending. sends; auto.
Qed.

Lemma sends_title_detail kind item_id media_type :
  only_sends (main.title_detail kind item_id media_type).
Proof.
  unfold main.title_detail, jellyfin.get_item, tmdb.get_details.
  pose proof sends_jellyfin_get. pose proof sends_tmdb_get. pose proof sends_devices.
  pose proof sends_stream_url. pose proof sends_is_in_library. pose proof sends_resolve.
  sends; auto.
Qed.

Lemma only_sends_same {A} (m : M World A) w :
  only_sends m -> same_but_trace w (snd (m w)).
Proof.
  intros Hm. destruct (Hm w) as [rs ->]. clear Hm. revert w.
  induction rs as [|r rs IH]; intros w; simpl.
  - repeat split; try reflexivity. exists []. rewrite app_nil_r. reflexivity.
  - destruct (IH (sent r w)) as (Hr & He & Hj & Ht & Hu & rs' & Htr).
    repeat split; try assumption. exists (r :: rs'). rewrite Htr. simpl.
    rewrite <- app_assoc. reflexivity.
Qed.

(** X14: rendering the home page or a title page writes nothing: the
    ratings table, the environment and the client objects are as before,
    and the trace of requests has only grown. *)
Theorem pages_only_send_requests :
  (forall w, same_but_trace w (snd (main.home w)))
  /\ (forall kind item_id media_type w,
        same_but_trace w (snd (main.title_detail kind item_id media_type w))).
Proof.
  split.
  - intros w. apply only_sends_same, sends_home.
  - intros kind item_id media_type w. apply only_sends_same, sends_title_detail.
Qed.

End read_only.

(** ** Rating, then viewing *)

Section rate_and_view.
Context `{PyBuiltins}.

Lemma bind_ok_keeps {A B} (m : M World A) (k : A -> M World B) w r :
  only_sends m ->
  fst (bind m k w) = Ok r ->
  exists a w1, ratings w1 = ratings w /\ fst (k a w1) = Ok r.
Proof.
  intros Hm. unfold bind. destruct (only_sends_same m w Hm) as [Hr _].
  destruct (m w) as [[a|e] w1]; [|discriminate]. eauto.
Qed.

Lemma rated_table now source key x w :
  db.get_rating source key (ratings (snd (main.rate_item now source key x w)))
  = Some (clamp x).
Proof. simpl. unfold db.upsert_rating. apply get_after_insert_or_update. Qed.

(** X15: after [rate_item] stores a rating for a library item, every
    title page rendered for that item carries the clamped rating, however
    many requests the page makes in between. *)
Theorem rating_shows_on_library_page
    (now : Z) (item_id : string) (x : Z) (media_type : option string) (w : World)
    (resp : main.PageResponse) :
  fst (main.title_detail "jellyfin" item_id media_type
         (snd (main.rate_item now "jellyfin" item_id x w))) = Ok resp ->
  shows_rating resp (VInt (clamp x)).
Proof.
  pose proof (rated_table now "jellyfin" item_id x w) as Hrated.
  set (w1 := snd (main.rate_item now "jellyfin" item_id x w)) in *.
  intros Hpage. unfold main.title_detail in Hpage. rewrite String.eqb_refl in Hpage.
  apply bind_ok_keeps in Hpage as (item & w2 & R2 & Hpage);
    [|unfold jellyfin.get_item; pose proof sends_jellyfin_get; sends; auto].
  apply bind_ok_keeps in Hpage as (devices & w3 & R3 & Hpage); [|apply sends_devices].
  apply bind_ok_keeps in Hpage as (play_url & w4 & R4 & Hpage); [|apply sends_stream_url].
  unfold bind, gets, ret in Hpage. simpl in Hpage. injection Hpage as <-.
  rewrite R4, R3, R2, Hrated. reflexivity.
Qed.

(** X16: the same for a TMDB title rated under the key
    [media_type:tmdb_id], which is the key its page looks up. *)
Theorem rating_shows_on_tmdb_page
    (now : Z) (kind item_id media_type : string) (tmdb_id x : Z) (w : World)
    (resp : main.PageResponse) :
  String.eqb kind "jellyfin" = false ->
  py_int item_id = Some tmdb_id ->
  fst (main.title_detail kind item_id (Some media_type)
         (snd (main.rate_item now "tmdb" (media_type +:+ ":" +:+ pretty tmdb_id) x w)))
  = Ok resp ->
  shows_rating resp (VInt (clamp x)).
Proof.
  intros Hkind Hint.
  pose proof (rated_table now "tmdb" (media_type +:+ ":" +:+ pretty tmdb_id) x w) as Hrated.
  set (w1 := snd (main.rate_item now "tmdb" _ x w)) in *.
  intros Hpage. unfold main.title_detail in Hpage. rewrite Hkind, Hint in Hpage.
  cbv zeta in Hpage. unfold bind at 1, lift_exc at 1 in Hpage.
  apply bind_ok_keeps in Hpage as (item & w2 & R2 & Hpage);
    [|unfold tmdb.get_details; pose proof sends_tmdb_get; sends; auto].
  apply bind_ok_keeps in Hpage as (in_library & w3 & R3 & Hpage);
    [|apply sends_is_in_library].
  apply bind_ok_keeps in Hpage as (release_date & w4 & R4 & Hpage); [|sends].
  apply bind_ok_keeps in Hpage as (year & w5 & R5 & Hpage); [|sends].
  apply bind_ok_keeps in Hpage as (links & w6 & R6 & Hpage);
    [|pose proof sends_resolve; sends; auto].
  unfold bind, gets, ret in Hpage. simpl in Hpage. injection Hpage as <-.
  rewrite R6, R5, R4, R3, R2, Hrated. reflexivity.
Qed.

(** X17: [send_to_device] never raises: whatever the play command
    meets, the route redirects to the item's page, having sent one probe
    and one play command for that item to the chosen base. *)
Theorem send_to_device_always_redirects (item_id session_id : string) (w : World) :
  fst (main.send_to_device item_id session_id w)
  = Ok (main.RedirectResponse ("/title/jellyfin/" +:+ item_id) 303)
  /\ trace (snd (main.send_to_device item_id session_id w))
     = trace w ++ [jellyfin.head_probe (jellyfin_obj w); play_request w session_id item_id].
Proof.
  unfold main.send_to_device, provider.send_to_device, jellyfin.play_item, bind, try_except.
  rewrite base_run. unfold gets, http, ret. simpl.
  fold (play_request w session_id item_id).
  destruct (upstream w _ (play_request w session_id item_id));
    simpl; rewrite <- app_assoc; split; reflexivity.
Qed.

End rate_and_view.

Lemma rating_shows_on_library_page_witness :
  exists resp,
    fst (@main.title_detail ascii_builtins "jellyfin" "i1" None
           (snd (main.rate_item 5 "jellyfin" "i1" 11 two_sessions))) = Ok resp
    /\ shows_rating resp (VInt 5).
Proof.
  eexists. split; [vm_compute; reflexivity|].
  refine (@rating_shows_on_library_page ascii_builtins 5 "i1" 11 None two_sessions _ _).
  vm_compute. reflexivity.
Defined.

Lemma rating_shows_on_tmdb_page_witness :
  String.eqb "tmdb" "jellyfin" = false
  /\ @py_int ascii_builtins "27205" = Some 27205
  /\ exists resp,
       fst (@main.title_detail ascii_builtins "tmdb" "27205" (Some "movie")
              (snd (main.rate_item 5 "tmdb" "movie:27205" 0 tmdb_page))) = Ok resp
       /\ shows_rating resp (VInt 1).
Proof.
  split; [reflexivity|]. split; [reflexivity|].
  eexists. split; [vm_compute; reflexivity|].
  refine (@rating_shows_on_tmdb_page ascii_builtins 5 "tmdb" "27205" "movie" 27205 0
            tmdb_page _ eq_refl eq_refl _).
  vm_compute. reflexivity.
Defined.

(** ** Devices, requests and edge cases of the routes *)

Section devices_and_requests.
Context `{PyBuiltins}.





(** X19: [jellyseerr.request] sends exactly one POST with the media
    type and id, and the user id only when a non-empty one is configured;
    when it returns, it reports [ok] for a status that is no error status,
    with the parsed body, and otherwise [ok = False] with the status and
    the text of the answer. *)
Theorem jellyseerr_request_outcome
    (self : jellyseerr.JellyseerrClient) (media_type : string) (tmdb_id : Z) (w : World) :
  trace (snd (jellyseerr.request self media_type tmdb_id w))
    = trace w ++ [jellyseerr_request self media_type tmdb_id]
  /\ assoc "mediaType" (jellyseerr.payload self media_type tmdb_id) = Some (VStr media_type)
  /\ assoc "mediaId" (jellyseerr.payload self media_type tmdb_id) = Some (VInt tmdb_id)
  /\ assoc "userId" (jellyseerr.payload self media_type tmdb_id)
     = match jellyseerr.user_id self with
       | Some u => if String.eqb u "" then None else Some (VStr u)
       | None => None
       end
  /\ (forall v, fst (jellyseerr.request self media_type tmdb_id w) = Ok v ->
        exists resp,
          upstream w (trace w) (jellyseerr_request self media_type tmdb_id) = inr resp
          /\ if resp_ok resp
             then exists data, json_body resp = Some data
                               /\ v = VDict [("ok", VBool true); ("data", data)]
             else v = VDict [("ok", VBool false); ("status", VInt (status_code resp));
                             ("error", VStr (text resp))]).
Proof.
  repeat apply conj.
  - unfold jellyseerr.request, bind, http. fold (jellyseerr_request self media_type tmdb_id).
    destruct (upstream w (trace w) _) as [why|resp]; [reflexivity|].
    destruct (resp_ok resp); [|reflexivity].
    unfold lift_exc, ret. destruct (resp_json resp); reflexivity.
  - unfold jellyseerr.payload. destruct (jellyseerr.user_id self) as [u|]; [|reflexivity].
    destruct (truthy (VStr u)); reflexivity.
  - unfold jellyseerr.payload. destruct (jellyseerr.user_id self) as [u|]; [|reflexivity].
    destruct (truthy (VStr u)); reflexivity.
  - unfold jellyseerr.payload. destruct (jellyseerr.user_id self) as [u|]; [|reflexivity].
    simpl. destruct (String.eqb u ""); reflexivity.
  - intros v. unfold jellyseerr.request, bind, http.
    fold (jellyseerr_request self media_type tmdb_id).
    destruct (upstream w (trace w) _) as [why|resp]; [discriminate|].
    intros Hv. exists resp. split; [reflexivity|].
    destruct (resp_ok resp).
    + unfold lift_exc, ret, resp_json in Hv.
      destruct (json_body resp) as [data|]; [|discriminate].
      injection Hv as <-. eauto.
    + injection Hv as <-. reflexivity.
Qed.

(** X20: the library check does not look at the media type: a film and
    a series with the same TMDB id get the same answer, from the one query
    [AnyProviderIdEquals=tmdb.<id>]. *)
Theorem library_check_ignores_media_type (tmdb_id media_type media_type' : Value) (w : World) :
  jellyfin.is_in_library tmdb_id media_type w = jellyfin.is_in_library tmdb_id media_type' w
  /\ trace (snd (jellyfin.is_in_library tmdb_id media_type w))
     = trace w ++ [jellyfin.head_probe (jellyfin_obj w);
                   get_request w "/Items"
                     [("AnyProviderIdEquals", VStr ("tmdb." +:+ py_str tmdb_id))]].
Proof.
  split; [reflexivity|].
  rewrite is_in_library_world. simpl. rewrite <- app_assoc. reflexivity.
Qed.

(** X21: every [kind] other than ["jellyfin"] is served as a TMDB title,
    and an [item_id] that is no integer then raises [ValueError] before
    anything is sent. *)
Theorem title_detail_other_kinds (kind item_id : string) (media_type : option string)
    (w : World) :
  String.eqb kind "jellyfin" = false ->
  main.title_detail kind item_id media_type w = main.title_detail "tmdb" item_id media_type w
  /\ (py_int item_id = None ->
      main.title_detail kind item_id media_type w = (Raise ValueError, w)).
Proof.
  intros Hkind. unfold main.title_detail. rewrite Hkind.
  split; [reflexivity|]. intros Hint. rewrite Hint. reflexivity.
Qed.

Lemma home_first_row w e :
  fst (jellyfin.get_continue_watching 24 w) = Raise e ->
  exists rest url,
    fst (main.home w)
    = Ok (main.TemplateResponse "home.html"
            [("rows", VList (main.row "Continue Watching" (VList []) "jellyfin" :: rest));
             ("jellyfin_url", url)]).
Proof.
  intros Hraise. unfold main.home, bind, try_except, ret.
  destruct (jellyfin.get_continue_watching 24 w) as [r1 w1]. simpl in Hraise. subst r1.
  destruct (jellyfin.get_recently_added 24 w1) as [[v2|e2] w2];
  destruct (recommender.recommend_download 12 w2) as [[v3|e3] w3];
  destruct (tmdb.get_trending 12 w3) as [[v4|e4] w4];
  destruct (tmdb.get_streaming_highlights 12 w4) as [[v5|e5] w5];
  rewrite base_run; simpl; eauto.
Qed.

(** X22: when the server answers the resume query with a bare list, as
    the comment in [get_continue_watching] says older versions do, the
    method raises [AttributeError] and the home page shows an empty
    "Continue Watching" row. *)
Theorem bare_list_empties_continue_watching (w : World) (resp : Response) (l : list Value) :
  upstream w (trace w ++ [jellyfin.head_probe (jellyfin_obj w)])
    (get_request w ("/Users/" +:+ user_id (jellyfin_obj w) +:+ "/Items/Resume")
       [("Limit", VInt 24)]) = inr resp ->
  resp_ok resp = true ->
  json_body resp = Some (VList l) ->
  fst (jellyfin.get_continue_watching 24 w) = Raise AttributeError
  /\ exists rest url,
       fst (main.home w)
       = Ok (main.TemplateResponse "home.html"
               [("rows", VList (main.row "Continue Watching" (VList []) "jellyfin" :: rest));
                ("jellyfin_url", url)]).
Proof.
  intros Hanswer Hok Hbody.
  assert (Hraise : fst (jellyfin.get_continue_watching 24 w) = Raise AttributeError).
  { unfold jellyfin.get_continue_watching, jellyfin._get, bind, gets. cbv beta iota.
    rewrite base_run. cbv beta iota. unfold http, sent.
    cbn [trace upstream jellyfin_obj].
    fold (get_request w
      ("/Users/" +:+ user_id (jellyfin_obj w) +:+ "/Items/Resume") [("Limit", VInt 24)]).
    rewrite Hanswer. unfold lift_exc. rewrite (resp_ok_pass _ Hok).
    unfold resp_json. rewrite Hbody. reflexivity. }
  split; [exact Hraise|]. eapply home_first_row, Hraise.
Qed.

End devices_and_requests.


Lemma title_detail_other_kinds_witness :
  String.eqb "movie" "jellyfin" = false
  /\ @py_int ascii_builtins "tt0111161" = None
  /\ @main.title_detail ascii_builtins "movie" "tt0111161" None tmdb_page
     = (Raise ValueError, tmdb_page).
Proof.
  split; [reflexivity|]. split; [reflexivity|].
  exact (proj2 (@title_detail_other_kinds ascii_builtins "movie" "tt0111161" None tmdb_page
                  eq_refl) eq_refl).
Defined.

Lemma bare_list_empties_continue_watching_witness :
  resp_ok (mkResponse 200 "" (Some (VList [VDict [("Id", VStr "i1")]]))) = true
  /\ fst (jellyfin.get_continue_watching 24 bare_list_server) = Raise AttributeError.
Proof.
  split; [reflexivity|].
  exact (proj1 (@bare_list_empties_continue_watching ascii_builtins bare_list_server
                  (mkResponse 200 "" (Some (VList [VDict [("Id", VStr "i1")]])))
                  [VDict [("Id", VStr "i1")]] eq_refl eq_refl eq_refl)).
Defined.
